(** * verificador-boe: amendment detection for consolidated legislation

    A shallow embedding of [src/api.js]: the index locator
    [buscarArticuloEnIndice], the amendment resolver
    [buscarModificacionesArticulo] and the orchestrator
    [comprobarModificacionArticulo], with the properties the specification
    states about them.

    The index and the analysis are the JSON documents that the BOE open-data
    API serves.  Their nodes are typed by the properties the code reads; every
    property is optional ([None] is a property that is absent, which JavaScript
    reads as [undefined]) and, when present, holds a value of the type the
    code expects: a string, or an array of nodes.  Reading a property or
    calling a method of [undefined] throws, as it does in JavaScript, so that
    the guards of the code are part of what is verified.  The call stack of the
    recursive search has a model of its own, beside the search without one.

    JavaScript strings are modelled by the byte strings of their UTF-8
    encoding; UTF-8 is self-synchronising, so substring containment on
    well-formed strings is the same on bytes and on code units. *)

From Stdlib Require Import List String Ascii Bool ZArith Lia Permutation DecimalString.
Import ListNotations.
Local Open Scope string_scope.

(** ** Completions: a JavaScript evaluation returns or throws *)

Module Error.
(** An [Error] object: its [name], its [message] and, for the errors of the
    HTTP client, the [response] as [console.error] prints it (status and
    [JSON.stringify] of the data). *)
Record t : Type := mk {
  name : string;
  message : string;
  response : option (string * string)
}.
End Error.

Inductive Completion (A : Type) : Type :=
| Normal (a : A)
| Throw (e : Error.t).
Arguments Normal {A} a.
Arguments Throw {A} e.

Definition ret {A} (a : A) : Completion A := Normal a.

Definition bind {A B} (c : Completion A) (k : A -> Completion B) : Completion B :=
  match c with
  | Normal a => k a
  | Throw e => Throw e
  end.

Declare Scope js_scope.
Delimit Scope js_scope with js.
Notation "x <- c ;; k" := (bind c (fun x => k))
  (at level 61, c at next level, right associativity) : js_scope.
Local Open Scope js_scope.

(** The engine's [TypeError]; the text follows V8 and no property below
    depends on it. *)
Definition TypeError (msg : string) : Error.t :=
  Error.mk "TypeError" msg None.

(** ** The JavaScript operations the code uses *)

(** [ToBoolean] of a value that is a string or [undefined]. *)
Definition truthy (v : option string) : bool :=
  match v with
  | None => false
  | Some EmptyString => false
  | Some (String _ _) => true
  end.

(** [ToString] of a value that is a string or [undefined]. *)
Definition ToString (v : option string) : string :=
  match v with
  | None => "undefined"
  | Some s => s
  end.

(** [s.includes(needle)] on a string: is [needle] a substring of [s]? *)
Fixpoint includes (s needle : string) : bool :=
  if prefix needle s then true
  else match s with
       | EmptyString => false
       | String _ s' => includes s' needle
       end.

(** [v.includes(needle)] where the receiver may be [undefined]: reading a
    property of [undefined] throws. *)
Definition call_includes (v : option string) (needle : string) : Completion bool :=
  match v with
  | None => Throw (TypeError "Cannot read properties of undefined (reading 'includes')")
  | Some s => ret (includes s needle)
  end.

(** [v.length] where the receiver is an array or [undefined]. *)
Definition get_length {A} (v : option (list A)) : Completion nat :=
  match v with
  | None => Throw (TypeError "Cannot read properties of undefined (reading 'length')")
  | Some l => ret (List.length l)
  end.

(** The iterator of [for (const x of v)]: [undefined] is not iterable. *)
Definition iterate {A} (v : option (list A)) : Completion (list A) :=
  match v with
  | None => Throw (TypeError "undefined is not iterable")
  | Some l => ret l
  end.

(** [a && b] and [a || b] on booleans, [b] evaluated only when needed. *)
Definition and_then (a : bool) (b : Completion bool) : Completion bool :=
  if a then b else ret false.

Definition or_else (a : bool) (b : Completion bool) : Completion bool :=
  if a then ret true else b.

(** [v || d] on a string or [undefined]: the default replaces a falsy value. *)
Definition or_default (v : option string) (d : string) : string :=
  match v with
  | Some (String c s) => String c s
  | _ => d
  end.

(** ** The index *)

#[local] Unset Elimination Schemes.

(** A node of the index: [{tipo, titulo, id, items}]. *)
Inductive Item : Type := mkItem {
  tipo : option string;
  titulo : option string;
  id : option string;
  items : option (list Item)
}.

#[local] Set Elimination Schemes.

(** [items || []]: an array is truthy, [undefined] is replaced. *)
Definition or_empty {A} (v : option (list A)) : list A :=
  match v with
  | Some l => l
  | None => []
  end.

Section Locator.
(** The number the inner function [buscarEnItems] captures. *)
Variable numeroArticulo : string.

(** The literal [`Artículo ${numeroArticulo}`]. *)
Definition patron : string := "Artículo " ++ numeroArticulo.

(** [item.tipo === 'articulo' && item.titulo && item.titulo.includes(...)]. *)
Definition es_articulo_buscado (item : Item) : Completion bool :=
  and_then (match tipo item with
            | Some t => String.eqb t "articulo"
            | None => false
            end)
    (and_then (truthy (titulo item))
       (call_includes (titulo item) patron)).

(** [item.items && item.items.length > 0]. *)
Definition tiene_subitems (item : Item) : Completion bool :=
  and_then (match items item with Some _ => true | None => false end)
    (n <- get_length (items item) ;; ret (Nat.ltb 0 n)).

(** One turn of the loop of [buscarEnItems]: [Some r] is [return r], [None]
    falls through to the next element.  The inner [bucle] is the loop of the
    recursive call [buscarEnItems(item.items)], over [items || []]. *)
Fixpoint cuerpo (item : Item) : Completion (option Item) :=
  let fix bucle (l : list Item) : Completion (option Item) :=
    match l with
    | [] => ret None
    | x :: l' =>
        r <- cuerpo x ;;
        match r with
        | Some e => ret (Some e)
        | None => bucle l'
        end
    end in
  m <- es_articulo_buscado item ;;
  if m then ret (Some item)
  else
    h <- tiene_subitems item ;;
    if h then
      match items item with
      | Some l => bucle l
      | None => bucle []
      end
    else ret None.

(** The loop [for (const item of ...)] of [buscarEnItems] followed by its
    [return null]. *)
Fixpoint bucle_items (l : list Item) : Completion (option Item) :=
  match l with
  | [] => ret None
  | item :: l' =>
      r <- cuerpo item ;;
      match r with
      | Some encontrado => ret (Some encontrado)
      | None => bucle_items l'
      end
  end.

(** The inner arrow function [buscarEnItems(items)]. *)
Definition buscarEnItems (items : option (list Item)) : Completion (option Item) :=
  bucle_items (or_empty items).

End Locator.

(** [buscarArticuloEnIndice(indice, numeroArticulo)]; the result [None] is
    [null]. *)
Definition buscarArticuloEnIndice (indice : Item) (numeroArticulo : string)
  : Completion (option Item) :=
  buscarEnItems numeroArticulo (items indice).

(** ** Dates *)

(** A [Date] object is its time value: milliseconds since the epoch, or [NaN]
    ([None]) for an invalid date. *)
Definition Date : Type := option Z.

(** [a >= b] and [a > b] on [Date] objects compare the time values; a
    comparison with [NaN] is false. *)
Definition Date_ge (a b : Date) : bool :=
  match a, b with
  | Some x, Some y => Z.leb y x
  | _, _ => false
  end.

Definition Date_gt (a b : Date) : bool :=
  match a, b with
  | Some x, Some y => Z.ltb y x
  | _, _ => false
  end.

(** ** The analysis *)

Module Modificacion.
(** An entry of [analisis.modificaciones]. *)
Record t : Type := mk {
  afectado : option string;
  fecha : option string;
  referencia : option string;
  texto : option string
}.
End Modificacion.

Module Detalle.
(** An entry of [resultado.detalles]. *)
Record t : Type := mk {
  fecha : option string;
  referencia : string;
  texto : string
}.
End Detalle.

Module Resultado.
(** The object [buscarModificacionesArticulo] returns;
    [fechaUltimaModificacion = None] is [null]. *)
Record t : Type := mk {
  modificado : bool;
  fechaUltimaModificacion : option string;
  detalles : list Detalle.t
}.
End Resultado.

(** The response of the analysis endpoint:
    [{analisis: {modificaciones: [...]}}]. *)
Record Cuerpo : Type := mkCuerpo {
  modificaciones : option (list Modificacion.t)
}.

Record Analisis : Type := mkAnalisis {
  analisis : option Cuerpo
}.

(** [v.modificaciones] where the receiver may be [undefined]. *)
Definition get_modificaciones (v : option Cuerpo)
  : Completion (option (list Modificacion.t)) :=
  match v with
  | None => Throw (TypeError "Cannot read properties of undefined (reading 'modificaciones')")
  | Some c => ret (modificaciones c)
  end.

(** [ToBoolean] of an object or array that may be [undefined]. *)
Definition present {A} (v : option A) : bool :=
  match v with
  | Some _ => true
  | None => false
  end.

(** The amendment records of an analysis: none when the collection is
    absent. *)
Definition registros (analisis_ : Analisis) : list Modificacion.t :=
  match analisis analisis_ with
  | Some c => or_empty (modificaciones c)
  | None => []
  end.

(** The [afectado] field contains the identifier: the field is present, is
    not the empty string, and has the identifier as a substring. *)
Definition Contiene (v : option string) (ident : string) : Prop :=
  exists s, v = Some s /\ s <> "" /\ includes s ident = true.

Definition contiene (v : option string) (ident : string) : bool :=
  match v with
  | Some (String c s) => includes (String c s) ident
  | _ => false
  end.

Section Resolver.
(** [Date.parse]: the engine's parser of date strings, [None] for [NaN].
    ECMA-262 fixes it on the ISO format only. *)
Variable Date_parse : string -> Date.

(** [new Date(v)] for a string or [undefined]. *)
Definition Date_new (v : option string) : Date :=
  match v with
  | None => None
  | Some s => Date_parse s
  end.

(** The object pushed on [resultado.detalles]. *)
Definition detalle (modificacion : Modificacion.t) : Detalle.t :=
  Detalle.mk (Modificacion.fecha modificacion)
    (or_default (Modificacion.referencia modificacion) "No disponible")
    (or_default (Modificacion.texto modificacion) "No disponible").

(** [!resultado.fechaUltimaModificacion || fechaMod > new Date(...)]. *)
Definition es_posterior (fechaMod : Date) (resultado : Resultado.t) : bool :=
  if negb (truthy (Resultado.fechaUltimaModificacion resultado)) then true
  else Date_gt fechaMod (Date_new (Resultado.fechaUltimaModificacion resultado)).

Section Bucle.
(** The parameters of [buscarModificacionesArticulo] that its loop reads. *)
Variable articuloId : string.
Variable fechaReferencia : Date.

(** The body of the loop over [analisis.analisis.modificaciones]; the
    mutation of [resultado] is the state passed along. *)
Definition paso (resultado : Resultado.t) (modificacion : Modificacion.t)
  : Completion Resultado.t :=
  c <- and_then (truthy (Modificacion.afectado modificacion))
         (call_includes (Modificacion.afectado modificacion) articuloId) ;;
  if c then
    let fechaMod := Date_new (Modificacion.fecha modificacion) in
    if Date_ge fechaMod fechaReferencia then
      let ultima :=
        if es_posterior fechaMod resultado
        then Modificacion.fecha modificacion
        else Resultado.fechaUltimaModificacion resultado in
      ret (Resultado.mk true ultima
             (Resultado.detalles resultado ++ [detalle modificacion]))
    else ret resultado
  else ret resultado.

Fixpoint bucle_modificaciones (l : list Modificacion.t) (resultado : Resultado.t)
  : Completion Resultado.t :=
  match l with
  | [] => ret resultado
  | modificacion :: l' =>
      resultado' <- paso resultado modificacion ;;
      bucle_modificaciones l' resultado'
  end.

(** *** What the specification calls a qualifying record *)

(** A record qualifies when its [afectado] contains the article and its
    date is on or after the reference date. *)
Definition Califica (m : Modificacion.t) : Prop :=
  Contiene (Modificacion.afectado m) articuloId /\
  Date_ge (Date_new (Modificacion.fecha m)) fechaReferencia = true.

Definition califica (m : Modificacion.t) : bool :=
  contiene (Modificacion.afectado m) articuloId
  && Date_ge (Date_new (Modificacion.fecha m)) fechaReferencia.

(** [m] carries the maximum date of [l], and is the first of [l] to carry
    it: the records before it are strictly earlier, no record after it is
    later. *)
Definition PrimerMaximo (l : list Modificacion.t) (m : Modificacion.t) : Prop :=
  exists l1 l2,
    l = (l1 ++ m :: l2)%list /\
    (forall x, In x l1 ->
       Date_gt (Date_new (Modificacion.fecha m)) (Date_new (Modificacion.fecha x)) = true) /\
    (forall x, In x l2 ->
       Date_ge (Date_new (Modificacion.fecha m)) (Date_new (Modificacion.fecha x)) = true).

(** The record's date, as [resultado.fechaUltimaModificacion] holds it after
    the records [vistos] have qualified. *)
Definition ultima_de (vistos : list Modificacion.t) (r : Resultado.t) : Prop :=
  match vistos with
  | [] => Resultado.fechaUltimaModificacion r = None
  | _ :: _ =>
      exists m, PrimerMaximo vistos m
                /\ Resultado.fechaUltimaModificacion r = Modificacion.fecha m
  end.
End Bucle.

Definition resultado_inicial : Resultado.t := Resultado.mk false None [].

(** [buscarModificacionesArticulo(analisis, articuloId, fechaReferencia)]. *)
Definition buscarModificacionesArticulo
    (analisis_ : Analisis) (articuloId : string) (fechaReferencia : Date)
  : Completion Resultado.t :=
  let resultado := resultado_inicial in
  sin_analisis <-
    or_else (negb (present (analisis analisis_)))
      (m <- get_modificaciones (analisis analisis_) ;; ret (negb (present m))) ;;
  if sin_analisis then ret resultado
  else
    m <- get_modificaciones (analisis analisis_) ;;
    l <- iterate m ;;
    bucle_modificaciones articuloId fechaReferencia l resultado.
End Resolver.

(** ** Asynchronous code: completions with a console *)

(** The lines written by [console.error], oldest first. *)
Definition Consola : Type := list string.

(** An [async] function runs against the console and settles: it resolves
    ([Normal]) or rejects ([Throw]). *)
Definition Async (A : Type) : Type := Consola -> Completion A * Consola.

Definition resolve {A} (a : A) : Async A := fun c => (Normal a, c).

Definition reject {A} (e : Error.t) : Async A := fun c => (Throw e, c).

Definition then_ {A B} (m : Async A) (k : A -> Async B) : Async B :=
  fun c =>
    match m c with
    | (Normal a, c') => k a c'
    | (Throw e, c') => (Throw e, c')
    end.

(** [try { m } catch (error) { h error }]. *)
Definition try_catch {A} (m : Async A) (h : Error.t -> Async A) : Async A :=
  fun c =>
    match m c with
    | (Normal a, c') => (Normal a, c')
    | (Throw e, c') => h e c'
    end.

(** [await p] of a promise that settles as [p]. *)
Definition await {A} (p : Completion A) : Async A := fun c => (p, c).

(** A synchronous call inside an [async] function: what it throws rejects
    the function, unless a [try] catches it. *)
Definition sync {A} (p : Completion A) : Async A := fun c => (p, c).

Definition console_error (line : string) : Async unit :=
  fun c => (Normal tt, (c ++ [line])%list).

Declare Scope async_scope.
Delimit Scope async_scope with async.
Notation "x <~ m ;; k" := (then_ m (fun x => k))
  (at level 61, m at next level, right associativity) : async_scope.
Notation "m ;;; k" := (then_ m (fun _ => k))
  (at level 61, right associativity) : async_scope.

Module CheckResult.
(** The three objects [comprobarModificacionArticulo] returns:
    [{encontrado: false, mensaje}], [{encontrado: true, articuloId, titulo,
    modificado, fechaUltimaModificacion, detallesModificacion}] and
    [{encontrado: false, error}]. *)
Inductive t : Type :=
| NoEncontrado (mensaje : string)
| Encontrado (articuloId titulo : option string) (modificado : bool)
    (fechaUltimaModificacion : option string)
    (detallesModificacion : list Detalle.t)
| ConError (error : string).

Definition encontrado (r : t) : bool :=
  match r with
  | Encontrado _ _ _ _ _ => true
  | _ => false
  end.

Definition error (r : t) : option string :=
  match r with
  | ConError e => Some e
  | _ => None
  end.

Definition mensaje (r : t) : option string :=
  match r with
  | NoEncontrado m => Some m
  | _ => None
  end.
End CheckResult.

Definition BASE_URL : string := "https://www.boe.es/datosabiertos/api".

(** The URLs of the two endpoints, as the template literals build them. *)
Definition url_analisis (docId : string) : string :=
  BASE_URL ++ "/legislacion-consolidada/id/" ++ docId ++ "/analisis".

Definition url_indice (docId : string) : string :=
  BASE_URL ++ "/legislacion-consolidada/id/" ++ docId ++ "/texto/indice".

Section Orchestrator.
Local Open Scope async_scope.

Variable Date_parse : string -> Date.

(** [axios.get(url)] followed by [.data], at the two endpoints the
    orchestrator reads: the promise resolves with the document or rejects. *)
Variable axios_get_indice : string -> Completion Item.
Variable axios_get_analisis : string -> Completion Analisis.

(** The [catch] block shared by the three fetch functions. *)
Definition registrar_y_relanzar {A} (linea : string) (error : Error.t) : Async A :=
  console_error (linea ++ ": " ++ Error.message error) ;;;
  match Error.response error with
  | Some (status, datos) =>
      console_error ("Estado: " ++ status ++ ", Datos: " ++ datos)
  | None => resolve tt
  end ;;;
  reject error.

Definition obtenerAnalisisLey (docId : string) : Async Analisis :=
  try_catch
    (let url := url_analisis docId in
     data <~ await (axios_get_analisis url) ;;
     resolve data)
    (registrar_y_relanzar ("Error al obtener análisis para " ++ docId)).

Definition obtenerIndice (docId : string) : Async Item :=
  try_catch
    (let url := url_indice docId in
     data <~ await (axios_get_indice url) ;;
     resolve data)
    (registrar_y_relanzar ("Error al obtener índice para " ++ docId)).

Definition comprobarModificacionArticulo
    (docId numeroArticulo : string) (fechaReferencia : Date)
  : Async CheckResult.t :=
  try_catch
    (indice <~ obtenerIndice docId ;;
     articulo <~ sync (buscarArticuloEnIndice indice numeroArticulo) ;;
     match articulo with
     | None =>
         resolve (CheckResult.NoEncontrado
                    ("No se encontró el artículo " ++ numeroArticulo
                       ++ " en el documento " ++ docId))
     | Some articulo =>
         analisis_ <~ obtenerAnalisisLey docId ;;
         modificaciones_ <~
           sync (buscarModificacionesArticulo Date_parse analisis_
                    (ToString (id articulo)) fechaReferencia) ;;
         resolve (CheckResult.Encontrado (id articulo) (titulo articulo)
                    (Resultado.modificado modificaciones_)
                    (Resultado.fechaUltimaModificacion modificaciones_)
                    (Resultado.detalles modificaciones_))
     end)
    (fun error =>
       console_error ("Error al comprobar modificaciones del artículo "
                        ++ numeroArticulo ++ " en " ++ docId ++ ": "
                        ++ Error.message error) ;;;
       resolve (CheckResult.ConError (Error.message error))).
End Orchestrator.

(** ** Specification-side definitions *)

(** Induction on the index: a property holds of a node when it holds of the
    nodes in its [items]. *)
Section Item_induction.
Variable P : Item -> Prop.
Hypothesis step :
  forall item, Forall P (or_empty (items item)) -> P item.

Fixpoint Item_ind (item : Item) : P item :=
  let fix todos (l : list Item) : Forall P l :=
    match l with
    | [] => Forall_nil P
    | x :: l' => Forall_cons x (Item_ind x) (todos l')
    end in
  step item
    (match items item as o return Forall P (or_empty o) with
     | Some l => todos l
     | None => Forall_nil P
     end).
End Item_induction.

(** The nodes below a node in depth-first pre-order: the node itself, then
    the pre-order of each child, children in their stored order. *)
Fixpoint preorden (item : Item) : list Item :=
  let fix hijos (l : list Item) : list Item :=
    match l with
    | [] => []
    | x :: l' => (preorden x ++ hijos l')%list
    end in
  item :: match items item with
          | Some l => hijos l
          | None => []
          end.

(** The nodes the locator can return: everything below the root, the root
    itself excluded, in pre-order. *)
Definition nodos (indice : Item) : list Item :=
  flat_map preorden (or_empty (items indice)).

(** The match predicate as a property: the node is tagged ["articulo"] and
    its title has the bytes of ["Artículo "] followed by the number somewhere
    inside it. *)
Definition Coincide (numeroArticulo : string) (item : Item) : Prop :=
  tipo item = Some "articulo" /\
  exists t pre post,
    titulo item = Some t /\ t = pre ++ "Artículo " ++ numeroArticulo ++ post.

(** The same predicate as a test. *)
Definition coincide (numeroArticulo : string) (item : Item) : bool :=
  match tipo item, titulo item with
  | Some k, Some t => String.eqb k "articulo" && includes t (patron numeroArticulo)
  | _, _ => false
  end.

(** [toLowerCase] on the ASCII and Latin-1 letters (the Spanish alphabet):
    [A]-[Z] and the two-byte letters U+00C0 to U+00DE. *)
Fixpoint toLowerCase (s : string) : string :=
  match s with
  | EmptyString => EmptyString
  | String c s' =>
      let n := nat_of_ascii c in
      if Nat.leb 65 n && Nat.leb n 90
      then String (ascii_of_nat (n + 32)) (toLowerCase s')
      else if Nat.eqb n 195 then
        match s' with
        | EmptyString => String c EmptyString
        | String c2 s'' =>
            let n2 := nat_of_ascii c2 in
            if Nat.leb 128 n2 && Nat.leb n2 158 && negb (Nat.eqb n2 151)
            then String c (String (ascii_of_nat (n2 + 32)) (toLowerCase s''))
            else String c (String c2 (toLowerCase s''))
        end
      else String c (toLowerCase s')
  end.

(** The match predicate of the specification's contract, which asks for a
    case-insensitive comparison of the title with ["Artículo " + number]. *)
Definition coincide_sin_caja (numeroArticulo : string) (item : Item) : bool :=
  match tipo item, titulo item with
  | Some k, Some t =>
      String.eqb k "articulo"
      && includes (toLowerCase t) (toLowerCase (patron numeroArticulo))
  | _, _ => false
  end.

(** ** An instance of [Date.parse]: ISO calendar dates *)

Definition digito (c : ascii) : option Z :=
  let n := Z.of_nat (nat_of_ascii c) in
  if (48 <=? n)%Z && (n <=? 57)%Z then Some (n - 48)%Z else None.

(** The value of a string of decimal digits read after [acc]. *)
Fixpoint digitos (acc : Z) (s : string) : option Z :=
  match s with
  | EmptyString => Some acc
  | String c s' =>
      match digito c with
      | Some d => digitos (10 * acc + d) s'
      | None => None
      end
  end.

Definition bisiesto (y : Z) : bool :=
  ((y mod 4 =? 0) && (negb (y mod 100 =? 0) || (y mod 400 =? 0)))%Z.

Definition dias_del_mes (y m : Z) : Z :=
  if (m =? 2)%Z then (if bisiesto y then 29 else 28)%Z
  else if ((m =? 4) || (m =? 6) || (m =? 9) || (m =? 11))%Z then 30%Z
  else 31%Z.

(** Days from 1970-01-01 to the civil date [y]-[m]-[d] (proleptic Gregorian
    calendar). *)
Definition dias_desde_epoca (y m d : Z) : Z :=
  (let y' := if m <=? 2 then y - 1 else y in
   let era := y' / 400 in
   let yoe := y' - era * 400 in
   let mp := if m <=? 2 then m + 9 else m - 3 in
   let doy := (153 * mp + 2) / 5 + d - 1 in
   let doe := yoe * 365 + yoe / 4 - yoe / 100 + doy in
   era * 146097 + doe - 719468)%Z.

(** The date-only form [YYYY-MM-DD], read as UTC midnight. *)
Definition fecha_iso (s : string) : Date :=
  if Nat.eqb (String.length s) 10
     && String.eqb (substring 4 1 s) "-"
     && String.eqb (substring 7 1 s) "-"
  then
    match digitos 0 (substring 0 4 s),
          digitos 0 (substring 5 2 s),
          digitos 0 (substring 8 2 s) with
    | Some y, Some m, Some d =>
        if ((1 <=? m) && (m <=? 12) && (1 <=? d) && (d <=? dias_del_mes y m))%Z
        then Some (dias_desde_epoca y m d * 86400000)%Z
        else None
    | _, _, _ => None
    end
  else None.

(** The time of day [HH:mm:ss], in milliseconds. *)
Definition hora_iso (s : string) : Date :=
  if Nat.eqb (String.length s) 8
     && String.eqb (substring 2 1 s) ":"
     && String.eqb (substring 5 1 s) ":"
  then
    match digitos 0 (substring 0 2 s),
          digitos 0 (substring 3 2 s),
          digitos 0 (substring 6 2 s) with
    | Some h, Some mi, Some se =>
        if ((h <=? 23) && (mi <=? 59) && (se <=? 59))%Z
        then Some ((h * 3600 + mi * 60 + se) * 1000)%Z
        else None
    | _, _, _ => None
    end
  else None.

(** [Date.parse] on two forms of the ECMA-262 date time string format:
    [YYYY-MM-DD] and [YYYY-MM-DDTHH:mm:ssZ], both UTC.  This instance
    recognises nothing else. *)
Definition Date_parse_iso (s : string) : Date :=
  if Nat.eqb (String.length s) 10 then fecha_iso s
  else if Nat.eqb (String.length s) 20
          && String.eqb (substring 10 1 s) "T"
          && String.eqb (substring 19 1 s) "Z"
  then
    match fecha_iso (substring 0 10 s), hora_iso (substring 11 8 s) with
    | Some d, Some h => Some (d + h)%Z
    | _, _ => None
    end
  else None.

(** ** Sample documents *)

Definition articulo (titulo_ id_ : string) : Item :=
  mkItem (Some "articulo") (Some titulo_) (Some id_) None.

Definition apartado (titulo_ : string) (hijos : list Item) : Item :=
  mkItem (Some "titulo") (Some titulo_) None (Some hijos).

Definition raiz (hijos : list Item) : Item :=
  mkItem None None None (Some hijos).

Definition modificacion (afectado_ fecha_ : string) : Modificacion.t :=
  Modificacion.mk (Some afectado_) (Some fecha_) None None.

Definition con_modificaciones (l : list Modificacion.t) : Analisis :=
  mkAnalisis (Some (mkCuerpo (Some l))).

(** The index of the end-to-end scenarios: one article, numbered 51. *)
Definition indice_51 : Item := raiz [articulo "Artículo 51" "a51"].

(** The same article with its title in capitals. *)
Definition indice_mayusculas : Item := raiz [articulo "ARTÍCULO 51" "a51"].

(** Two matching nodes: the first in pre-order lies deeper than the second. *)
Definition indice_dos : Item :=
  raiz [apartado "Título I" [articulo "Artículo 51. Ausencia" "a51"];
        articulo "Artículo 51" "b51"].

(** Article 51 stands before article 5. *)
Definition indice_prefijo : Item :=
  raiz [articulo "Artículo 51" "a51"; articulo "Artículo 5" "a5"].

Definition analisis_uno : Analisis :=
  con_modificaciones [modificacion "a51" "2020-01-01"].

Definition analisis_dos : Analisis :=
  con_modificaciones [modificacion "a51" "2020-01-01";
                      modificacion "a51" "2020-06-01"].

(** Later amendment first, and a record for another article in between. *)
Definition analisis_desordenado : Analisis :=
  con_modificaciones [modificacion "a51" "2020-06-01";
                      modificacion "a7" "2020-03-01";
                      modificacion "a51" "2020-01-01"].

(** [analisis_dos] with a record in between whose date does not parse. *)
Definition analisis_sin_fecha : Analisis :=
  con_modificaciones [modificacion "a51" "2020-01-01";
                      modificacion "a51" "sin fecha";
                      modificacion "a51" "2020-06-01"].

(** Two records with the same time value, written in two ways. *)
Definition analisis_empate : Analisis :=
  con_modificaciones [modificacion "a51" "2020-01-01";
                      modificacion "a51" "2020-06-01T00:00:00Z";
                      modificacion "a51" "2020-06-01"].

Definition docId_CC : string := "BOE-A-1889-4763".

Definition error_red : Error.t :=
  Error.mk "AxiosError" "Network Error" None.

Definition error_404 : Error.t :=
  Error.mk "AxiosError" "Request failed with status code 404"
    (Some ("404", "{}")).

(** A network that serves [indice_51] and fails on the analysis. *)
Definition red_indice (url : string) : Completion Item :=
  if String.eqb url (url_indice docId_CC) then Normal indice_51
  else Throw error_404.

Definition red_analisis_caida (url : string) : Completion Analisis :=
  Throw error_red.

Definition red_analisis (a : Analisis) (url : string) : Completion Analisis :=
  if String.eqb url (url_analisis docId_CC) then Normal a
  else Throw error_404.

(** ** More sample documents *)

(** [analisis_dos] read in the opposite order. *)
Definition analisis_dos_invertido : Analisis :=
  con_modificaciones [modificacion "a51" "2020-06-01";
                      modificacion "a51" "2020-01-01"].

(** A record for article [a51] and one for article [a5]. *)
Definition analisis_vecinos : Analisis :=
  con_modificaciones [modificacion "a51" "2020-01-01";
                      modificacion "a5" "2020-06-01"].

(** * The rest of the program *)

(** ** The block fetch of [src/api.js] *)

Definition url_bloque (docId idBloque : string) : string :=
  BASE_URL ++ "/legislacion-consolidada/id/" ++ docId ++ "/texto/bloque/" ++ idBloque.

Section Bloque.
(** [axios.get(url)] followed by [.data] at the block endpoint; the code
    returns the document as it comes. *)
Variable Datos : Type.
Variable axios_get_bloque : string -> Completion Datos.

Definition obtenerBloque (docId idBloque : string) : Async Datos :=
  try_catch
    (let url := url_bloque docId idBloque in
     then_ (await (axios_get_bloque url)) (fun data => resolve data))
    (registrar_y_relanzar
       ("Error al obtener bloque " ++ idBloque ++ " del documento " ++ docId)).
End Bloque.

(** What the [catch] block of a fetch function writes on the console for
    the way [axios.get] settled: nothing when it resolved; the message and,
    when the error carries a response, the status line when it rejected. *)
Definition lineas_de_fetch {A} (linea : string) (p : Completion A) : list string :=
  match p with
  | Normal _ => []
  | Throw error =>
      (linea ++ ": " ++ Error.message error)
      :: match Error.response error with
         | Some (status, datos) => ["Estado: " ++ status ++ ", Datos: " ++ datos]
         | None => []
         end
  end.

(** The line the orchestrator writes in its own [catch] block. *)
Definition linea_de_error (docId numeroArticulo : string) (error : Error.t) : string :=
  "Error al comprobar modificaciones del artículo "
  ++ numeroArticulo ++ " en " ++ docId ++ ": " ++ Error.message error.

(** What a run of the orchestrator writes on the console. *)
Definition traza_de_comprobar
    (axios_get_indice : string -> Completion Item)
    (axios_get_analisis : string -> Completion Analisis)
    (docId numeroArticulo : string) : list string :=
  match axios_get_indice (url_indice docId) with
  | Throw e =>
      (lineas_de_fetch ("Error al obtener índice para " ++ docId)
         (axios_get_indice (url_indice docId))
       ++ [linea_de_error docId numeroArticulo e])%list
  | Normal indice =>
      match buscarArticuloEnIndice indice numeroArticulo with
      | Normal (Some _) =>
          match axios_get_analisis (url_analisis docId) with
          | Throw e =>
              (lineas_de_fetch ("Error al obtener análisis para " ++ docId)
                 (axios_get_analisis (url_analisis docId))
               ++ [linea_de_error docId numeroArticulo e])%list
          | Normal _ => []
          end
      | _ => []
      end
  end.

(** An index whose only article has no [id], and an amendment whose
    [afectado] holds the text [undefined]. *)
Definition indice_sin_id : Item :=
  raiz [mkItem (Some "articulo") (Some "Artículo 51") None None].

Definition analisis_undefined : Analisis :=
  con_modificaciones [modificacion "undefined" "2020-01-01"].

Definition red_indice_sin_id (url : string) : Completion Item :=
  Normal indice_sin_id.

(** ** The report of [src/reporter.js] *)

Module Articulo.
(** An entry of the articles file, as [leerArticulos] returns it. *)
Record t : Type := mk {
  numero : string;
  abreviatura : string;
  lineaOriginal : string
}.
End Articulo.

Module Entrada.
(** An element of [resultados]: the spread of the article and of the
    orchestrator's result, with [docId] and [nombreLey] ([None] when the
    object has no such property). *)
Record t : Type := mk {
  articulo : Articulo.t;
  resultado : CheckResult.t;
  docId : option string;
  nombreLey : option string
}.
End Entrada.

(** The properties of an element of [resultados] that only the object of a
    found article has; on the other objects they read as [undefined]. *)
Definition get_modificado (e : Entrada.t) : bool :=
  match Entrada.resultado e with
  | CheckResult.Encontrado _ _ modificado _ _ => modificado
  | _ => false
  end.

Definition get_fechaUltimaModificacion (e : Entrada.t) : option string :=
  match Entrada.resultado e with
  | CheckResult.Encontrado _ _ _ fecha _ => fecha
  | _ => None
  end.

Definition get_detallesModificacion (e : Entrada.t) : option (list Detalle.t) :=
  match Entrada.resultado e with
  | CheckResult.Encontrado _ _ _ _ detalles => Some detalles
  | _ => None
  end.

(** The line feed of the template literals. *)
Definition LF : string := String (ascii_of_nat 10) EmptyString.

(** [`${n}`] for an integer number. *)
Definition Number_toString (n : Z) : string :=
  NilZero.string_of_int (Z.to_int n).

Module Clasificacion.
(** The counters and the arrays that [generarInforme] fills. *)
Record t : Type := mk {
  articulosModificados : Z;
  articulosNoEncontrados : Z;
  articulosConError : Z;
  modificados : list Entrada.t;
  noModificados : list Entrada.t;
  noEncontrados : list Entrada.t;
  conError : list Entrada.t
}.
End Clasificacion.

(** The callback of [resultados.forEach] that classifies one result. *)
Definition clasificar_uno (k : Clasificacion.t) (resultado : Entrada.t)
  : Clasificacion.t :=
  let '(Clasificacion.mk nMod nNoEnc nErr mods noMods noEncs errs) := k in
  if negb (CheckResult.encontrado (Entrada.resultado resultado)) then
    if truthy (CheckResult.error (Entrada.resultado resultado)) then
      Clasificacion.mk nMod nNoEnc (nErr + 1) mods noMods noEncs
        (errs ++ [resultado])
    else
      Clasificacion.mk nMod (nNoEnc + 1) nErr mods noMods
        (noEncs ++ [resultado]) errs
  else if get_modificado resultado then
    Clasificacion.mk (nMod + 1) nNoEnc nErr (mods ++ [resultado]) noMods noEncs errs
  else
    Clasificacion.mk nMod nNoEnc nErr mods (noMods ++ [resultado]) noEncs errs.

Definition clasificar (resultados : list Entrada.t) : Clasificacion.t :=
  fold_left clasificar_uno resultados (Clasificacion.mk 0 0 0 [] [] [] []).

(** The line of one amendment in the section of a modified article. *)
Definition linea_de_detalle (mod_ : Detalle.t) : string :=
  "  - " ++ ToString (Detalle.fecha mod_) ++ ": " ++ Detalle.texto mod_
  ++ " (Ref: " ++ Detalle.referencia mod_ ++ ")" ++ LF.

(** What the callback of [modificados.forEach] appends for one article. *)
Definition bloque_de_modificado (art : Entrada.t) : string :=
  "### " ++ Articulo.lineaOriginal (Entrada.articulo art) ++ LF ++ LF
  ++ "- **ID en el BOE:** " ++ ToString (Entrada.docId art) ++ LF
  ++ "- **Fecha última modificación:** "
  ++ or_default (get_fechaUltimaModificacion art) "No disponible" ++ LF
  ++ match get_detallesModificacion art with
     | Some (d :: ds) =>
         "- **Detalles de las modificaciones:**" ++ LF
         ++ String.concat "" (map linea_de_detalle (d :: ds))
     | _ => ""
     end
  ++ LF.

Definition linea_de_no_encontrado (art : Entrada.t) : string :=
  "- " ++ Articulo.lineaOriginal (Entrada.articulo art)
  ++ " (" ++ ToString (Entrada.docId art) ++ ")" ++ LF.

Definition linea_de_con_error (art : Entrada.t) : string :=
  "- " ++ Articulo.lineaOriginal (Entrada.articulo art)
  ++ " (" ++ ToString (Entrada.docId art) ++ "): "
  ++ ToString (CheckResult.error (Entrada.resultado art)) ++ LF.

(** The value of [contenido] when [generarInforme] writes the file, for the
    two dates as [format] renders them. *)
Definition contenido_del_informe
    (resultados : list Entrada.t) (fechaFormateada fechaInforme : string)
  : string :=
  let totalArticulos := Z.of_nat (List.length resultados) in
  let k := clasificar resultados in
  "# Informe de modificaciones de artículos legales" ++ LF ++ LF
  ++ "**Fecha de referencia:** " ++ fechaFormateada ++ LF
  ++ "**Fecha del informe:** " ++ fechaInforme ++ LF ++ LF
  ++ "## Resumen" ++ LF ++ LF
  ++ "- **Total de artículos verificados:** "
  ++ Number_toString totalArticulos ++ LF
  ++ "- **Artículos modificados desde " ++ fechaFormateada ++ ":** "
  ++ Number_toString (Clasificacion.articulosModificados k) ++ LF
  ++ "- **Artículos no modificados:** "
  ++ Number_toString (totalArticulos - Clasificacion.articulosModificados k
                      - Clasificacion.articulosNoEncontrados k
                      - Clasificacion.articulosConError k) ++ LF
  ++ "- **Artículos no encontrados:** "
  ++ Number_toString (Clasificacion.articulosNoEncontrados k) ++ LF
  ++ "- **Artículos con error en la consulta:** "
  ++ Number_toString (Clasificacion.articulosConError k) ++ LF ++ LF
  ++ match Clasificacion.modificados k with
     | [] => ""
     | l => "## Artículos modificados" ++ LF ++ LF
            ++ String.concat "" (map bloque_de_modificado l)
     end
  ++ match Clasificacion.noEncontrados k with
     | [] => ""
     | l => "## Artículos no encontrados" ++ LF ++ LF
            ++ String.concat "" (map linea_de_no_encontrado l) ++ LF
     end
  ++ match Clasificacion.conError k with
     | [] => ""
     | l => "## Artículos con error en la consulta" ++ LF ++ LF
            ++ String.concat "" (map linea_de_con_error l) ++ LF
     end.

(** [console.log] writes on the same terminal as [console.error]. *)
Definition console_log (line : string) : Async unit :=
  fun c => (Normal tt, (c ++ [line])%list).

Section Reporter.
Local Open Scope async_scope.

(** [format] of date-fns, with the Spanish locale and without: it throws on
    an invalid date. *)
Variable format_es : Date -> string -> Completion string.
Variable format : Date -> string -> Completion string.
(** [new Date()], read twice. *)
Variable ahora ahora' : Date.
Variable path_join : string -> string -> string.
(** [fs.writeFile(path, data, 'utf8')]. *)
Variable fs_writeFile : string -> string -> Completion unit.

Definition generarInforme
    (resultados : list Entrada.t) (fechaReferencia : Date) (outputPath : string)
  : Async string :=
  fechaFormateada <~ sync (format_es fechaReferencia "dd/MM/yyyy") ;;
  fechaInforme <~ sync (format_es ahora "dd/MM/yyyy HH:mm:ss") ;;
  let contenido := contenido_del_informe resultados fechaFormateada fechaInforme in
  sello <~ sync (format ahora' "yyyyMMdd_HHmmss") ;;
  let nombreArchivo := "informe_" ++ sello ++ ".md" in
  let rutaCompleta := path_join outputPath nombreArchivo in
  await (fs_writeFile rutaCompleta contenido) ;;;
  console_log ("Informe generado en: " ++ rutaCompleta) ;;;
  resolve rutaCompleta.
End Reporter.

(** The class of a result in the report. *)
Inductive Clase : Type :=
| EnModificados
| EnNoModificados
| EnNoEncontrados
| EnConError.

(** Where the report puts a result: a failed check whose message is the
    empty string goes with the articles not found, as [resultado.error] is
    then falsy. *)
Definition clase (e : Entrada.t) : Clase :=
  match Entrada.resultado e with
  | CheckResult.Encontrado _ _ true _ _ => EnModificados
  | CheckResult.Encontrado _ _ false _ _ => EnNoModificados
  | CheckResult.NoEncontrado _ => EnNoEncontrados
  | CheckResult.ConError EmptyString => EnNoEncontrados
  | CheckResult.ConError (String _ _) => EnConError
  end.

Definition es_de_clase (k : Clase) (e : Entrada.t) : bool :=
  match k, clase e with
  | EnModificados, EnModificados
  | EnNoModificados, EnNoModificados
  | EnNoEncontrados, EnNoEncontrados
  | EnConError, EnConError => true
  | _, _ => false
  end.

(** ** The readers of [src/parser.js] *)

(** The white space of JavaScript ([WhiteSpace] and [LineTerminator], which
    is what [\s] matches and [trim] removes), by the bytes of its UTF-8
    encoding: the ASCII characters U+0009 to U+000D and U+0020; U+00A0;
    U+1680, U+2000 to U+200A, U+2028, U+2029, U+202F, U+205F, U+3000 and
    U+FEFF. *)
Definition blanco1 (a : ascii) : bool :=
  let n := nat_of_ascii a in
  (Nat.leb 9 n && Nat.leb n 13) || Nat.eqb n 32.

Definition blanco2 (a b : ascii) : bool :=
  Nat.eqb (nat_of_ascii a) 194 && Nat.eqb (nat_of_ascii b) 160.

Definition blanco3 (a b c : ascii) : bool :=
  let n := nat_of_ascii a in
  let m := nat_of_ascii b in
  let k := nat_of_ascii c in
  (Nat.eqb n 225 && Nat.eqb m 154 && Nat.eqb k 128)
  || (Nat.eqb n 226 && Nat.eqb m 128
      && ((Nat.leb 128 k && Nat.leb k 138) || Nat.eqb k 168 || Nat.eqb k 169
          || Nat.eqb k 175))
  || (Nat.eqb n 226 && Nat.eqb m 129 && Nat.eqb k 159)
  || (Nat.eqb n 227 && Nat.eqb m 128 && Nat.eqb k 128)
  || (Nat.eqb n 239 && Nat.eqb m 187 && Nat.eqb k 191).

(** [s] without the white space at its start: [trimStart], and what [\s*]
    leaves. *)
Fixpoint saltar_blancos (s : string) : string :=
  match s with
  | EmptyString => EmptyString
  | String a r =>
      if blanco1 a then saltar_blancos r
      else
        match r with
        | EmptyString => s
        | String b r2 =>
            if blanco2 a b then saltar_blancos r2
            else
              match r2 with
              | EmptyString => s
              | String c r3 =>
                  if blanco3 a b c then saltar_blancos r3 else s
              end
        end
  end.

(** [s] starts with a white space character. *)
Definition empieza_en_blanco (s : string) : bool :=
  match s with
  | EmptyString => false
  | String a r =>
      blanco1 a
      || match r with
         | EmptyString => false
         | String b r2 =>
             blanco2 a b
             || match r2 with
                | EmptyString => false
                | String c _ => blanco3 a b c
                end
         end
  end.

(** [s.trim()]. *)
Fixpoint trimEnd (s : string) : string :=
  match s with
  | EmptyString => EmptyString
  | String a r =>
      if String.eqb (saltar_blancos s) "" then EmptyString
      else String a (trimEnd r)
  end.

Definition trim (s : string) : string := trimEnd (saltar_blancos s).

(** [data.split('\n')]. *)
Fixpoint split_LF (s : string) : list string :=
  match s with
  | EmptyString => [EmptyString]
  | String a r =>
      if Nat.eqb (nat_of_ascii a) 10 then EmptyString :: split_LF r
      else
        match split_LF r with
        | h :: t => String a h :: t
        | [] => [String a EmptyString]
        end
  end.

Definition es_digito (a : ascii) : bool :=
  let n := nat_of_ascii a in Nat.leb 48 n && Nat.leb n 57.

(** [[A-Z]] under the flag [i]: the ASCII letters. *)
Definition es_letra (a : ascii) : bool :=
  let n := nat_of_ascii a in
  (Nat.leb 65 n && Nat.leb n 90) || (Nat.leb 97 n && Nat.leb n 122).

(** The longest prefix of [s] whose characters satisfy [p], and the rest:
    a greedy [p+] or [p*]. *)
Fixpoint tomar (p : ascii -> bool) (s : string) : string * string :=
  match s with
  | EmptyString => (EmptyString, EmptyString)
  | String a r =>
      if p a then let '(x, y) := tomar p r in (String a x, y)
      else (EmptyString, s)
  end.

(** A letter of the pattern under the flag [i]. *)
Definition es_letra_i (min : ascii) (a : ascii) : bool :=
  Nat.eqb (nat_of_ascii a) (nat_of_ascii min)
  || Nat.eqb (nat_of_ascii a + 32) (nat_of_ascii min).

(** [/Art\.?\s+(\d+)\s+([A-Z]+)/i] matched at the start of [s]: the two
    groups.  Every quantified piece is followed by a piece that matches none
    of its characters, so the greedy choice is the only one that can
    succeed. *)
Definition regex_aqui (s : string) : option (string * string) :=
  match s with
  | String a (String r (String t s1)) =>
      if es_letra_i "a" a && es_letra_i "r" r && es_letra_i "t" t then
        let s2 := match s1 with
                  | String p s2 =>
                      if Nat.eqb (nat_of_ascii p) 46 then s2 else s1
                  | EmptyString => s1
                  end in
        if empieza_en_blanco s2 then
          let '(numero, s3) := tomar es_digito (saltar_blancos s2) in
          if String.eqb numero "" then None
          else if empieza_en_blanco s3 then
            let '(abreviatura, _) := tomar es_letra (saltar_blancos s3) in
            if String.eqb abreviatura "" then None
            else Some (numero, abreviatura)
          else None
        else None
      else None
  | _ => None
  end.

(** [linea.match(regex)]: the match that starts leftmost. *)
Fixpoint regex_match (s : string) : option (string * string) :=
  match regex_aqui s with
  | Some m => Some m
  | None =>
      match s with
      | EmptyString => None
      | String _ r => regex_match r
      end
  end.

(** [console.warn] writes on the same terminal as [console.error]. *)
Definition console_warn (line : string) : Async unit :=
  fun c => (Normal tt, (c ++ [line])%list).

(** The callback of [lineas.map]: the article of a line, or [null] after a
    warning. *)
Definition leer_linea (linea : string) : Async (option Articulo.t) :=
  match regex_match linea with
  | Some (numero, abreviatura) =>
      resolve (Some (Articulo.mk numero abreviatura (trim linea)))
  | None =>
      then_ (console_warn ("Formato no reconocido: " ++ linea))
        (fun _ => resolve None)
  end.

(** [lineas.map(callback)] with the effects of the callback in order. *)
Fixpoint map_async {A B} (f : A -> Async B) (l : list A) : Async (list B) :=
  match l with
  | [] => resolve []
  | x :: l' =>
      then_ (f x) (fun y => then_ (map_async f l') (fun ys => resolve (y :: ys)))
  end.

(** [.filter(Boolean)] on an array of objects and [null]s. *)
Fixpoint filter_Boolean {A} (l : list (option A)) : list A :=
  match l with
  | [] => []
  | Some x :: l' => x :: filter_Boolean l'
  | None :: l' => filter_Boolean l'
  end.

Module Ley.
(** A value of the abbreviations file: [{id, nombre}]. *)
Record t : Type := mk {
  id : option string;
  nombre : option string
}.
End Ley.

(** The object of the abbreviations file: its own properties. *)
Definition Abreviaturas : Type := list (string * Ley.t).

Section Parser.
Local Open Scope async_scope.

(** [fs.readFile(filePath, 'utf8')] and [JSON.parse] on the abbreviations
    file. *)
Variable fs_readFile : string -> Completion string.
Variable JSON_parse : string -> Completion Abreviaturas.

Definition leerAbreviaturas (filePath : string) : Async Abreviaturas :=
  try_catch
    (data <~ await (fs_readFile filePath) ;;
     sync (JSON_parse data))
    (fun error =>
       console_error ("Error al leer el archivo de abreviaturas: "
                        ++ Error.message error) ;;;
       reject error).

Definition leerArticulos (filePath : string) : Async (list Articulo.t) :=
  try_catch
    (data <~ await (fs_readFile filePath) ;;
     let lineas :=
       filter (fun linea => negb (String.eqb (trim linea) "")) (split_LF data) in
     leidos <~ map_async leer_linea lineas ;;
     resolve (filter_Boolean leidos))
    (fun error =>
       console_error ("Error al leer el archivo de artículos: "
                        ++ Error.message error) ;;;
       reject error).
End Parser.

(** The line that the expected format gives an article. *)
Definition linea_de_articulo (numero abreviatura : string) : string :=
  "Art. " ++ numero ++ " " ++ abreviatura.

(** A string of one or more characters that all satisfy [p]. *)
Definition todos (p : ascii -> bool) (s : string) : bool :=
  negb (String.eqb s "") && forallb p (list_ascii_of_string s).

(** The lines of the articles file that are not blank. *)
Definition lineas_utiles (data : string) : list string :=
  filter (fun linea => negb (String.eqb (trim linea) "")) (split_LF data).

(** The article of a line, console apart. *)
Definition articulo_de_linea (linea : string) : option Articulo.t :=
  match regex_match linea with
  | Some (numero, abreviatura) =>
      Some (Articulo.mk numero abreviatura (trim linea))
  | None => None
  end.

Definition no_reconocida (linea : string) : bool :=
  match regex_match linea with
  | Some _ => false
  | None => true
  end.

(** An article as the expected format writes it: digits, letters, and the
    line the two make. *)
Definition bien_formado (a : Articulo.t) : bool :=
  todos es_digito (Articulo.numero a)
  && todos es_letra (Articulo.abreviatura a)
  && String.eqb (Articulo.lineaOriginal a)
       (linea_de_articulo (Articulo.numero a) (Articulo.abreviatura a)).

(** The articles file that lists [arts], one per line. *)
Definition archivo_de (arts : list Articulo.t) : string :=
  String.concat LF (map Articulo.lineaOriginal arts).

(** A printable ASCII character other than the space: it starts no white
    space and ends none. *)
Definition firme (a : ascii) : bool :=
  let n := nat_of_ascii a in Nat.ltb 32 n && Nat.ltb n 128.

(** ** The loop of [main] in [src/index.js] *)

(** The property names every object inherits from [Object.prototype]. *)
Definition Object_prototype : list string :=
  ["constructor"; "__defineGetter__"; "__defineSetter__"; "hasOwnProperty";
   "__lookupGetter__"; "__lookupSetter__"; "isPrototypeOf";
   "propertyIsEnumerable"; "toString"; "valueOf"; "__proto__";
   "toLocaleString"].

(** The own property [key] of the abbreviations object. *)
Fixpoint propiedad_propia (abreviaturas : Abreviaturas) (key : string)
  : option Ley.t :=
  match abreviaturas with
  | [] => None
  | (k, v) :: resto =>
      if String.eqb k key then Some v else propiedad_propia resto key
  end.

(** [abreviaturas[key]]: the own property or, for a name of
    [Object.prototype], the inherited member, which is an object without
    [id] and without [nombre]; [None] is [undefined]. *)
Definition get_abreviatura (abreviaturas : Abreviaturas) (key : string)
  : option Ley.t :=
  match propiedad_propia abreviaturas key with
  | Some v => Some v
  | None =>
      if existsb (String.eqb key) Object_prototype
      then Some (Ley.mk None None)
      else None
  end.

(** What the orchestrator returns, console apart. *)
Definition veredicto
    (Date_parse : string -> Date)
    (axios_get_indice : string -> Completion Item)
    (axios_get_analisis : string -> Completion Analisis)
    (docId numeroArticulo : string) (fechaReferencia : Date) : CheckResult.t :=
  match axios_get_indice (url_indice docId) with
  | Throw e => CheckResult.ConError (Error.message e)
  | Normal indice =>
      match buscarArticuloEnIndice indice numeroArticulo with
      | Throw e => CheckResult.ConError (Error.message e)
      | Normal None =>
          CheckResult.NoEncontrado
            ("No se encontró el artículo " ++ numeroArticulo
               ++ " en el documento " ++ docId)
      | Normal (Some articulo) =>
          match axios_get_analisis (url_analisis docId) with
          | Throw e => CheckResult.ConError (Error.message e)
          | Normal a =>
              match buscarModificacionesArticulo Date_parse a
                      (ToString (id articulo)) fechaReferencia with
              | Throw e => CheckResult.ConError (Error.message e)
              | Normal m =>
                  CheckResult.Encontrado (id articulo) (titulo articulo)
                    (Resultado.modificado m)
                    (Resultado.fechaUltimaModificacion m)
                    (Resultado.detalles m)
              end
          end
      end
  end.

Section Main.
Local Open Scope async_scope.

Variable Date_parse : string -> Date.
Variable axios_get_indice : string -> Completion Item.
Variable axios_get_analisis : string -> Completion Analisis.
Variable abreviaturas : Abreviaturas.
Variable fechaReferencia : Date.

(** The line [main] prints for the result of one check. *)
Definition linea_de_resultado (resultado : CheckResult.t) : string :=
  if CheckResult.encontrado resultado then
    match resultado with
    | CheckResult.Encontrado _ _ true fechaUltimaModificacion _ =>
        "  ✅ Modificado: última modificación el "
        ++ or_default fechaUltimaModificacion "fecha no disponible"
    | _ => "  ℹ️ No modificado desde la fecha de referencia"
    end
  else "  ❌ " ++ ToString (CheckResult.mensaje resultado).

(** One turn of the loop [for (let i = 0; i < articulos.length; i++)]: the
    element it pushes on [resultados].  Nothing can throw between the [push]
    of the [try] block and its end, so the [catch] block never pushes a
    second element. *)
Definition verificar_uno (i total : nat) (articulo : Articulo.t)
  : Async Entrada.t :=
  console_log ("[" ++ Number_toString (Z.of_nat i + 1) ++ "/"
                 ++ Number_toString (Z.of_nat total) ++ "] Verificando "
                 ++ Articulo.lineaOriginal articulo ++ "...") ;;;
  match get_abreviatura abreviaturas (Articulo.abreviatura articulo) with
  | None =>
      console_warn ("  ⚠️ Abreviatura no reconocida: "
                      ++ Articulo.abreviatura articulo) ;;;
      resolve (Entrada.mk articulo
                 (CheckResult.NoEncontrado
                    ("Abreviatura no reconocida: "
                       ++ Articulo.abreviatura articulo))
                 None None)
  | Some ley =>
      let docId := Ley.id ley in
      try_catch
        (resultado <~
           comprobarModificacionArticulo Date_parse axios_get_indice
             axios_get_analisis (ToString docId) (Articulo.numero articulo)
             fechaReferencia ;;
         console_log (linea_de_resultado resultado) ;;;
         resolve (Entrada.mk articulo resultado docId (Ley.nombre ley)))
        (fun error =>
           console_error ("  ❌ Error: " ++ Error.message error) ;;;
           resolve (Entrada.mk articulo
                      (CheckResult.ConError (Error.message error))
                      docId None))
  end.

(** The loop from index [i], with [resultados] as filled so far. *)
Fixpoint verificar_desde (i total : nat) (articulos : list Articulo.t)
    (resultados : list Entrada.t) : Async (list Entrada.t) :=
  match articulos with
  | [] => resolve resultados
  | articulo :: resto =>
      entrada <~ verificar_uno i total articulo ;;
      verificar_desde (S i) total resto (resultados ++ [entrada])
  end.

(** The loop of [main] over the articles read. *)
Definition verificar_articulos (articulos : list Articulo.t)
  : Async (list Entrada.t) :=
  verificar_desde 0 (List.length articulos) articulos [].

(** The element of [resultados] for an article, console apart. *)
Definition entrada_de (articulo : Articulo.t) : Entrada.t :=
  match get_abreviatura abreviaturas (Articulo.abreviatura articulo) with
  | None =>
      Entrada.mk articulo
        (CheckResult.NoEncontrado
           ("Abreviatura no reconocida: " ++ Articulo.abreviatura articulo))
        None None
  | Some ley =>
      Entrada.mk articulo
        (veredicto Date_parse axios_get_indice axios_get_analisis
           (ToString (Ley.id ley)) (Articulo.numero articulo) fechaReferencia)
        (Ley.id ley) (Ley.nombre ley)
  end.
End Main.

(** A law of the abbreviations file, and the sample file. *)
Definition abreviaturas_CC : Abreviaturas :=
  [("CC", Ley.mk (Some docId_CC) (Some "Código Civil"))].

(** ** Samples for the readers, the loop and the report *)

(** An articles file with a blank line, a padded line in lower case, a line
    that is no article and a line with a word after the number. *)
Definition archivo_ejemplo : string :=
  "Art. 51 CC" ++ LF ++ "" ++ LF ++ "  art 7 cc  " ++ LF
  ++ "no es un articulo" ++ LF ++ "Art. 12 bis LEC" ++ LF.

Definition disco_ejemplo (filePath : string) : Completion string :=
  Normal archivo_ejemplo.

Definition articulos_ejemplo : list Articulo.t :=
  [Articulo.mk "51" "CC" "Art. 51 CC"; Articulo.mk "7" "cc" "Art. 7 cc"].

Definition disco_de (arts : list Articulo.t) (filePath : string)
  : Completion string :=
  Normal (archivo_de arts).

Definition articulo_constructor : Articulo.t :=
  Articulo.mk "1" "constructor" "Art. 1 constructor".

Definition entrada_modificada : Entrada.t :=
  Entrada.mk (Articulo.mk "51" "CC" "Art. 51 CC")
    (CheckResult.Encontrado (Some "a51") (Some "Artículo 51") true
       (Some "2020-01-01")
       [Detalle.mk (Some "2020-01-01") "No disponible" "No disponible"])
    (Some docId_CC) (Some "Código Civil").

Definition entrada_sin_cambios (numero : string) : Entrada.t :=
  Entrada.mk (Articulo.mk numero "CC" ("Art. " ++ numero ++ " CC"))
    (CheckResult.Encontrado (Some ("a" ++ numero))
       (Some ("Artículo " ++ numero)) false None [])
    (Some docId_CC) (Some "Código Civil").

Definition entrada_fallida (mensaje : string) : Entrada.t :=
  Entrada.mk (Articulo.mk "9" "CC" "Art. 9 CC")
    (CheckResult.ConError mensaje) (Some docId_CC) (Some "Código Civil").

(** ** The call stack of the locator *)

(** [buscarEnItems] calls itself once for each level of nesting of the
    index, and the engine enters a call only while its stack has room: the
    call that finds none throws a [RangeError].  The code has no guard on the
    depth.  [pila] is the number of calls of [buscarEnItems] that the stack
    can still hold when the locator starts; the text of the message follows
    V8 and no property below depends on it. *)
Definition RangeError : Error.t :=
  Error.mk "RangeError" "Maximum call stack size exceeded" None.

Section LocatorStack.
Variable numeroArticulo : string.
(** The call [buscarEnItems(item.items)], as the frame that runs the loop
    finds it. *)
Variable llamar : option (list Item) -> Completion (option Item).

(** The loop of one call of [buscarEnItems] and its [return null]. *)
Fixpoint bucle_pila (l : list Item) : Completion (option Item) :=
  match l with
  | [] => ret None
  | item :: l' =>
      m <- es_articulo_buscado numeroArticulo item ;;
      if m then ret (Some item)
      else
        h <- tiene_subitems item ;;
        encontrado <- (if h then llamar (items item) else ret None) ;;
        match encontrado with
        | Some e => ret (Some e)
        | None => bucle_pila l'
        end
  end.
End LocatorStack.

(** [buscarEnItems(items)] on a stack with room for [pila] calls. *)
Fixpoint buscarEnItems_pila (numeroArticulo : string) (pila : nat)
    (items_ : option (list Item)) : Completion (option Item) :=
  match pila with
  | 0 => Throw RangeError
  | S pila' =>
      bucle_pila numeroArticulo (buscarEnItems_pila numeroArticulo pila')
        (or_empty items_)
  end.

(** [buscarArticuloEnIndice(indice, numeroArticulo)] on that stack. *)
Definition buscarArticuloEnIndice_pila (pila : nat) (indice : Item)
    (numeroArticulo : string) : Completion (option Item) :=
  buscarEnItems_pila numeroArticulo pila (items indice).

(** The calls of [buscarEnItems] nested below a node when all of it is
    searched: none for a node without [items] or with an empty array. *)
Fixpoint profundidad (item : Item) : nat :=
  let fix maxima (l : list Item) : nat :=
    match l with
    | [] => 0
    | x :: l' => Nat.max (profundidad x) (maxima l')
    end in
  match items item with
  | Some (x :: l) => S (Nat.max (profundidad x) (maxima l))
  | _ => 0
  end.

(** The calls nested when [buscarEnItems] searches all of [l]: its own, and
    those below the deepest node of [l]. *)
Definition marcos (l : list Item) : nat := S (list_max (map profundidad l)).

(** The calls nested when the whole index is searched. *)
Definition marcos_de (indice : Item) : nat := marcos (or_empty (items indice)).

(** An index nested [k] levels below its first: one article below [k]
    headings, each the only child of the one before. *)
Fixpoint hondo (k : nat) : list Item :=
  match k with
  | 0 => [articulo "Artículo 1" "a1"]
  | S k' => [apartado "Título" (hondo k')]
  end.

(** ** The orchestrator and the exceptions of the functions it calls *)

Section OrchestratorCalls.
Local Open Scope async_scope.

(** The two synchronous calls inside the [try] block.  Whatever they throw
    (the [RangeError] of a deep index, a [TypeError] on a document that is
    not of the documented type) reaches the same [catch]. *)
Variable buscarArticulo : Item -> string -> Completion (option Item).
Variable buscarModificaciones
  : Analisis -> string -> Date -> Completion Resultado.t.
Variable axios_get_indice : string -> Completion Item.
Variable axios_get_analisis : string -> Completion Analisis.

(** [comprobarModificacionArticulo] with the locator and the resolver it
    calls as parameters. *)
Definition comprobarModificacionArticulo_con
    (docId numeroArticulo : string) (fechaReferencia : Date)
  : Async CheckResult.t :=
  try_catch
    (indice <~ obtenerIndice axios_get_indice docId ;;
     articulo <~ sync (buscarArticulo indice numeroArticulo) ;;
     match articulo with
     | None =>
         resolve (CheckResult.NoEncontrado
                    ("No se encontró el artículo " ++ numeroArticulo
                       ++ " en el documento " ++ docId))
     | Some articulo =>
         analisis_ <~ obtenerAnalisisLey axios_get_analisis docId ;;
         modificaciones_ <~
           sync (buscarModificaciones analisis_
                    (ToString (id articulo)) fechaReferencia) ;;
         resolve (CheckResult.Encontrado (id articulo) (titulo articulo)
                    (Resultado.modificado modificaciones_)
                    (Resultado.fechaUltimaModificacion modificaciones_)
                    (Resultado.detalles modificaciones_))
     end)
    (fun error =>
       console_error ("Error al comprobar modificaciones del artículo "
                        ++ numeroArticulo ++ " en " ++ docId ++ ": "
                        ++ Error.message error) ;;;
       resolve (CheckResult.ConError (Error.message error))).
End OrchestratorCalls.

(** The orchestrator on a stack with room for [pila] calls of
    [buscarEnItems]. *)
Definition comprobarModificacionArticulo_pila (pila : nat)
    (Date_parse : string -> Date)
    (axios_get_indice : string -> Completion Item)
    (axios_get_analisis : string -> Completion Analisis)
    (docId numeroArticulo : string) (fechaReferencia : Date)
  : Async CheckResult.t :=
  comprobarModificacionArticulo_con (buscarArticuloEnIndice_pila pila)
    (buscarModificacionesArticulo Date_parse)
    axios_get_indice axios_get_analisis docId numeroArticulo fechaReferencia.

(** A network that serves the index nested [k] levels deep. *)
Definition red_indice_hondo (k : nat) (url : string) : Completion Item :=
  Normal (raiz (hondo k)).

(** * Properties *)

(** ** The instance of [Date.parse] and [toLowerCase] on samples *)

Example Date_parse_iso_2020 :
  Date_parse_iso "2020-01-01" = Some 1577836800000%Z.
Proof. reflexivity. Qed.

Example Date_parse_iso_epoch : Date_parse_iso "1970-01-01" = Some 0%Z.
Proof. reflexivity. Qed.

Example Date_parse_iso_time :
  Date_parse_iso "2020-06-01T00:00:00Z" = Date_parse_iso "2020-06-01"
  /\ Date_parse_iso "1970-01-01T01:00:01Z" = Some 3601000%Z.
Proof. split; reflexivity. Qed.

Example Date_parse_iso_leap :
  Date_parse_iso "2024-02-29" = Some 1709164800000%Z
  /\ Date_parse_iso "2023-02-29" = None.
Proof. split; reflexivity. Qed.

Example toLowerCase_articulo : toLowerCase "ARTÍCULO 51" = "artículo 51".
Proof. reflexivity. Qed.

(** ** Strings *)

Lemma append_assoc (a b c : string) : (a ++ b) ++ c = a ++ b ++ c.
Proof. induction a as [|x a IH]; simpl; [reflexivity | now rewrite IH]. Qed.

Lemma prefix_true_iff (n s : string) :
  prefix n s = true <-> exists post, s = n ++ post.
Proof.
  revert s; induction n as [|c n IH]; intros s.
  - split; [intros _; exists s; reflexivity | destruct s; reflexivity].
  - destruct s as [|c' s]; simpl.
    + split; [discriminate | intros [post H]; discriminate].
    + destruct (Ascii.ascii_dec c c') as [->|Hne].
      * rewrite IH. split; intros [post H]; exists post.
        -- now rewrite H.
        -- now injection H.
      * split; [discriminate | intros [post H]; injection H; congruence].
Qed.

Lemma includes_unfold (s n : string) :
  includes s n =
  if prefix n s then true
  else match s with
       | EmptyString => false
       | String _ s' => includes s' n
       end.
Proof. destruct s; reflexivity. Qed.

Lemma includes_true_iff (s n : string) :
  includes s n = true <-> exists pre post, s = pre ++ n ++ post.
Proof.
  split.
  - induction s as [|c s IH]; rewrite includes_unfold;
      destruct (prefix n _) eqn:Hp.
    + intros _. apply prefix_true_iff in Hp as [post ->].
      now exists "", post.
    + discriminate.
    + intros _. apply prefix_true_iff in Hp as [post ->].
      now exists "", post.
    + intros H. destruct (IH H) as (pre & post & ->).
      now exists (String c pre), post.
  - intros (pre & post & ->). induction pre as [|c pre IH].
    + rewrite includes_unfold.
      replace (prefix n ("" ++ n ++ post)) with true; [reflexivity|].
      symmetry. apply prefix_true_iff. now exists post.
    + rewrite includes_unfold. simpl append.
      destruct (prefix n (String c _)); [reflexivity | exact IH].
Qed.

Lemma includes_empty_haystack (n : string) :
  includes "" n = true -> n = "".
Proof.
  intros H. apply includes_true_iff in H as (pre & post & H).
  destruct pre; [|discriminate]. destruct n; [reflexivity | discriminate].
Qed.

(** ** The index locator *)

Lemma es_articulo_buscado_coincide (n : string) (item : Item) :
  es_articulo_buscado n item = Normal (coincide n item).
Proof.
  unfold es_articulo_buscado, coincide.
  destruct (tipo item) as [k|]; [|reflexivity].
  destruct (String.eqb k "articulo"); simpl.
  - destruct (titulo item) as [[|c t]|]; reflexivity.
  - now destruct (titulo item).
Qed.

Lemma coincide_Coincide (n : string) (item : Item) :
  coincide n item = true <-> Coincide n item.
Proof.
  unfold coincide, Coincide, patron.
  destruct (tipo item) as [k|], (titulo item) as [t|].
  - rewrite andb_true_iff, String.eqb_eq, includes_true_iff. split.
    + intros [-> (pre & post & ->)]. split; [reflexivity|].
      exists (pre ++ ("Artículo " ++ n) ++ post), pre, post.
      split; [reflexivity|]. now rewrite !append_assoc.
    + intros [Hk (t' & pre & post & Ht & ->)].
      injection Hk as ->. injection Ht as ->. split; [reflexivity|].
      exists pre, post. now rewrite !append_assoc.
  - split; [discriminate | intros [_ (t & _ & _ & H & _)]; discriminate].
  - split; [discriminate | intros [H _]; discriminate].
  - split; [discriminate | intros [H _]; discriminate].
Qed.

Lemma tiene_subitems_value (item : Item) :
  tiene_subitems item =
  Normal (match items item with Some (_ :: _) => true | _ => false end).
Proof.
  unfold tiene_subitems. destruct (items item) as [[|x l]|]; reflexivity.
Qed.

(** The loop body, with the recursive call as the source writes it. *)
Lemma cuerpo_unfold (n : string) (item : Item) :
  cuerpo n item =
  (m <- es_articulo_buscado n item ;;
   if m then ret (Some item)
   else
     h <- tiene_subitems item ;;
     if h then buscarEnItems n (items item) else ret None).
Proof.
  destruct item as [k t i [[|x l]|]]; cbn [cuerpo items];
    destruct (es_articulo_buscado n _) as [[|]|]; reflexivity.
Qed.

Lemma preorden_unfold (item : Item) :
  preorden item = item :: flat_map preorden (or_empty (items item)).
Proof.
  destruct item as [k t i [l|]]; reflexivity.
Qed.

Lemma find_app {A} (f : A -> bool) (l1 l2 : list A) :
  find f (l1 ++ l2) = match find f l1 with
                      | Some x => Some x
                      | None => find f l2
                      end.
Proof.
  induction l1 as [|x l1 IH]; simpl; [reflexivity|].
  destruct (f x); [reflexivity | exact IH].
Qed.

Lemma bucle_items_Forall (n : string) (l : list Item) :
  Forall (fun item => cuerpo n item = Normal (find (coincide n) (preorden item))) l ->
  bucle_items n l = Normal (find (coincide n) (flat_map preorden l)).
Proof.
  induction 1 as [|x l Hx _ IH]; simpl; [reflexivity|].
  rewrite Hx, find_app. simpl.
  destruct (find (coincide n) (preorden x)); [reflexivity | exact IH].
Qed.

(** One turn of the loop finds the first match of the node's pre-order. *)
Lemma cuerpo_find (n : string) (item : Item) :
  cuerpo n item = Normal (find (coincide n) (preorden item)).
Proof.
  induction item as [item IH] using Item_ind.
  rewrite cuerpo_unfold, preorden_unfold, es_articulo_buscado_coincide,
    tiene_subitems_value.
  cbn [bind ret find]. destruct (coincide n item); [reflexivity|].
  unfold buscarEnItems.
  destruct (items item) as [[|x l]|]; try reflexivity.
  apply bucle_items_Forall. exact IH.
Qed.

Lemma buscarEnItems_find (n : string) (v : option (list Item)) :
  buscarEnItems n v = Normal (find (coincide n) (flat_map preorden (or_empty v))).
Proof.
  unfold buscarEnItems. apply bucle_items_Forall.
  apply Forall_forall. intros item _. apply cuerpo_find.
Qed.

(** The locator finds the first match of the pre-order of the index. *)
Lemma buscarArticuloEnIndice_find (n : string) (indice : Item) :
  buscarArticuloEnIndice indice n = Normal (find (coincide n) (nodos indice)).
Proof. apply buscarEnItems_find. Qed.

(** ** The amendment resolver *)

Lemma Date_ge_valid (a b : Date) :
  Date_ge a b = true -> exists x, a = Some x.
Proof. destruct a as [x|]; [now exists x | discriminate]. Qed.

Lemma Date_ge_refl (x : Z) : Date_ge (Some x) (Some x) = true.
Proof. apply Z.leb_refl. Qed.

Lemma Date_gt_trans (a b c : Date) :
  Date_gt a b = true -> Date_gt b c = true -> Date_gt a c = true.
Proof.
  destruct a, b, c; simpl; try discriminate. rewrite !Z.ltb_lt. lia.
Qed.

Lemma Date_gt_ge_trans (a b c : Date) :
  Date_gt a b = true -> Date_ge b c = true -> Date_gt a c = true.
Proof.
  destruct a, b, c; simpl; try discriminate. rewrite !Z.ltb_lt, Z.leb_le. lia.
Qed.

Lemma Date_not_gt_ge (a b : Z) :
  Date_gt (Some a) (Some b) = false -> Date_ge (Some b) (Some a) = true.
Proof. simpl. rewrite Z.ltb_ge, Z.leb_le. lia. Qed.

Section ResolverFacts.
Variable Date_parse : string -> Date.
Variable articuloId : string.
Variable fechaReferencia : Date.

#[local] Abbreviation Date_new := (Date_new Date_parse).
#[local] Abbreviation califica := (califica Date_parse articuloId fechaReferencia).
#[local] Abbreviation Califica := (Califica Date_parse articuloId fechaReferencia).
#[local] Abbreviation paso := (paso Date_parse articuloId fechaReferencia).
#[local] Abbreviation bucle_modificaciones :=
  (bucle_modificaciones Date_parse articuloId fechaReferencia).
#[local] Abbreviation PrimerMaximo := (PrimerMaximo Date_parse).
#[local] Abbreviation ultima_de := (ultima_de Date_parse).

Lemma contiene_Contiene (v : option string) (ident : string) :
  contiene v ident = true <-> Contiene v ident.
Proof.
  unfold contiene, Contiene. destruct v as [[|c s]|].
  - split; [discriminate | intros (s & H & Hne & _); injection H as <-; congruence].
  - split.
    + intros H. exists (String c s). repeat split; [discriminate | exact H].
    + intros (s' & H & _ & Hi). now injection H as <-.
  - split; [discriminate | intros (s & H & _); discriminate].
Qed.

(** For an identifier that is not empty the test is plain containment. *)
Lemma Contiene_includes (v : option string) (ident : string) :
  ident <> "" ->
  (Contiene v ident <-> exists s, v = Some s /\ includes s ident = true).
Proof.
  intros Hid. split.
  - intros (s & Hv & _ & Hi). now exists s.
  - intros (s & Hv & Hi). exists s. repeat split; try assumption.
    intros ->. now apply includes_empty_haystack in Hi.
Qed.

Lemma califica_Califica (m : Modificacion.t) :
  califica m = true <-> Califica m.
Proof.
  unfold califica, Califica.
  now rewrite andb_true_iff, contiene_Contiene.
Qed.

(** The guard of the loop body is the containment test. *)
Lemma guarda_afectado (m : Modificacion.t) :
  and_then (truthy (Modificacion.afectado m))
    (call_includes (Modificacion.afectado m) articuloId)
  = Normal (contiene (Modificacion.afectado m) articuloId).
Proof. destruct (Modificacion.afectado m) as [[|c s]|]; reflexivity. Qed.

(** The loop body never throws: it records a qualifying record and leaves
    the result alone otherwise. *)
Lemma paso_value (r : Resultado.t) (m : Modificacion.t) :
  paso r m =
  Normal (if califica m
          then Resultado.mk true
                 (if es_posterior Date_parse (Date_new (Modificacion.fecha m)) r
                  then Modificacion.fecha m
                  else Resultado.fechaUltimaModificacion r)
                 (Resultado.detalles r ++ [detalle m])
          else r).
Proof.
  unfold paso, califica. rewrite guarda_afectado.
  cbn [bind]. destruct (contiene _ _); [|reflexivity].
  cbn [andb]. now destruct (Date_ge _ _).
Qed.

Lemma paso_no_califica (r : Resultado.t) (m : Modificacion.t) :
  califica m = false -> paso r m = Normal r.
Proof. intros H. now rewrite paso_value, H. Qed.

Lemma bucle_modificaciones_total (l : list Modificacion.t) (r : Resultado.t) :
  exists r', bucle_modificaciones l r = Normal r'.
Proof.
  revert r; induction l as [|m l IH]; intros r; simpl.
  - now exists r.
  - rewrite paso_value. cbn [bind]. apply IH.
Qed.

(** The loop only looks at the qualifying records. *)
Lemma bucle_modificaciones_filter (l : list Modificacion.t) (r : Resultado.t) :
  bucle_modificaciones l r = bucle_modificaciones (filter califica l) r.
Proof.
  revert r; induction l as [|m l IH]; intros r; simpl; [reflexivity|].
  destruct (califica m) eqn:Hm.
  - simpl. rewrite !paso_value, Hm. cbn [bind]. apply IH.
  - rewrite paso_no_califica by assumption. cbn [bind]. apply IH.
Qed.

Lemma bucle_modificaciones_detalles (l : list Modificacion.t) (r r' : Resultado.t) :
  bucle_modificaciones l r = Normal r' ->
  Resultado.detalles r' =
  (Resultado.detalles r ++ map (detalle) (filter califica l))%list.
Proof.
  revert r; induction l as [|m l IH]; intros r; simpl.
  - intros [= <-]. now rewrite app_nil_r.
  - rewrite paso_value. cbn [bind]. intros H. apply IH in H. rewrite H.
    destruct (califica m); [|reflexivity].
    simpl. now rewrite <- app_assoc.
Qed.

Lemma bucle_modificaciones_modificado (l : list Modificacion.t) (r r' : Resultado.t) :
  bucle_modificaciones l r = Normal r' ->
  Resultado.modificado r' = Resultado.modificado r || existsb califica l.
Proof.
  revert r; induction l as [|m l IH]; intros r; simpl.
  - intros [= <-]. now rewrite orb_false_r.
  - rewrite paso_value. cbn [bind]. intros H. apply IH in H. rewrite H.
    destruct (califica m); simpl; [now rewrite orb_true_r | reflexivity].
Qed.

(** The resolver is the loop run over the records of the analysis; a
    missing collection is an empty one. *)
Lemma buscarModificacionesArticulo_bucle (a : Analisis) :
  buscarModificacionesArticulo Date_parse a articuloId fechaReferencia =
  bucle_modificaciones (registros a) resultado_inicial.
Proof.
  unfold buscarModificacionesArticulo, registros.
  destruct (analisis a) as [[[l|]]|]; reflexivity.
Qed.

Lemma existsb_califica (l : list Modificacion.t) :
  existsb califica l = true <-> exists m, In m l /\ Califica m.
Proof.
  rewrite existsb_exists. split; intros (m & Hin & H); exists m;
    (split; [exact Hin | now apply califica_Califica]).
Qed.

(** *** The running maximum *)

Hypothesis Date_parse_empty : Date_parse "" = None.

Lemma califica_fecha_valida (m : Modificacion.t) :
  califica m = true -> exists x, Date_new (Modificacion.fecha m) = Some x.
Proof.
  unfold califica. rewrite andb_true_iff. intros [_ H].
  exact (Date_ge_valid _ _ H).
Qed.

Lemma califica_fecha_truthy (m : Modificacion.t) :
  califica m = true -> truthy (Modificacion.fecha m) = true.
Proof.
  intros H. destruct (califica_fecha_valida _ H) as [x Hx].
  destruct (Modificacion.fecha m) as [[|c s]|]; simpl in *;
    [congruence | reflexivity | discriminate].
Qed.

Lemma es_posterior_primero (d : Date) (r : Resultado.t) :
  Resultado.fechaUltimaModificacion r = None ->
  es_posterior Date_parse d r = true.
Proof. unfold es_posterior. now intros ->. Qed.

Lemma es_posterior_siguiente (d : Date) (r : Resultado.t) (mx : Modificacion.t) :
  califica mx = true ->
  Resultado.fechaUltimaModificacion r = Modificacion.fecha mx ->
  es_posterior Date_parse d r = Date_gt d (Date_new (Modificacion.fecha mx)).
Proof.
  intros Hq Hr. unfold es_posterior. rewrite Hr.
  now rewrite (califica_fecha_truthy _ Hq).
Qed.

Lemma PrimerMaximo_In (l : list Modificacion.t) (m : Modificacion.t) :
  PrimerMaximo l m -> In m l.
Proof. intros (l1 & l2 & -> & _). apply in_elt. Qed.

(** One more qualifying record keeps the running maximum right. *)
Lemma ultima_de_paso (vistos : list Modificacion.t) (r : Resultado.t)
    (m : Modificacion.t) :
  Forall (fun x => califica x = true) vistos ->
  califica m = true ->
  ultima_de vistos r ->
  ultima_de (vistos ++ [m])
    (Resultado.mk true
       (if es_posterior Date_parse (Date_new (Modificacion.fecha m)) r
        then Modificacion.fecha m
        else Resultado.fechaUltimaModificacion r)
       (Resultado.detalles r ++ [detalle m])).
Proof.
  intros Hall Hm Hinv.
  destruct vistos as [|v vistos]; cbn [ultima_de] in Hinv.
  - rewrite (es_posterior_primero _ _ Hinv). simpl.
    exists m. split; [|reflexivity].
    exists [], []. repeat split; intros x [].
  - destruct Hinv as (mx & Hmax & Hr).
    assert (Hmx : califica mx = true).
    { rewrite Forall_forall in Hall. apply Hall, PrimerMaximo_In, Hmax. }
    rewrite (es_posterior_siguiente _ _ _ Hmx Hr).
    destruct Hmax as (l1 & l2 & Heq & Hantes & Hdespues).
    cbn [ultima_de app]. rewrite app_comm_cons, Heq.
    destruct (Date_gt _ _) eqn:Hgt; cbn [Resultado.fechaUltimaModificacion].
    + exists m. split; [|reflexivity].
      exists (l1 ++ mx :: l2)%list, []. repeat split; [|intros x []].
      intros x Hx. apply in_app_or in Hx as [Hx|[<-|Hx]].
      * exact (Date_gt_trans _ _ _ Hgt (Hantes x Hx)).
      * exact Hgt.
      * exact (Date_gt_ge_trans _ _ _ Hgt (Hdespues x Hx)).
    + exists mx. split; [|exact Hr].
      exists l1, (l2 ++ [m])%list. repeat split.
      * now rewrite <- app_assoc.
      * exact Hantes.
      * intros x Hx. apply in_app_or in Hx as [Hx|[<-|[]]].
        -- exact (Hdespues x Hx).
        -- destruct (califica_fecha_valida _ Hm) as [a Ha].
           destruct (califica_fecha_valida _ Hmx) as [b Hb].
           rewrite Ha, Hb in *. now apply Date_not_gt_ge.
Qed.

Lemma bucle_modificaciones_ultima (l vistos : list Modificacion.t)
    (r r' : Resultado.t) :
  Forall (fun x => califica x = true) vistos ->
  ultima_de vistos r ->
  bucle_modificaciones l r = Normal r' ->
  ultima_de (vistos ++ filter califica l) r'.
Proof.
  revert vistos r; induction l as [|m l IH]; intros vistos r Hall Hinv; simpl.
  - intros [= <-]. now rewrite app_nil_r.
  - rewrite paso_value. cbn [bind]. destruct (califica m) eqn:Hm.
    + intros H.
      replace (vistos ++ m :: filter califica l)%list
        with ((vistos ++ [m]) ++ filter califica l)%list
        by now rewrite <- app_assoc.
      eapply IH; [|apply ultima_de_paso; eassumption|exact H].
      apply Forall_app. split; [exact Hall | now constructor].
    + apply IH; assumption.
Qed.
End ResolverFacts.

(** ** Properties of the index locator *)

Lemma find_first {A} (f : A -> bool) (l l1 l2 : list A) (e : A) :
  l = (l1 ++ e :: l2)%list ->
  f e = true ->
  (forall x, In x l1 -> f x = false) ->
  find f l = Some e.
Proof.
  intros -> He. induction l1 as [|x l1 IH]; intros Hl1; simpl.
  - now rewrite He.
  - rewrite (Hl1 x (or_introl eq_refl)). apply IH.
    intros y Hy. apply Hl1. now right.
Qed.

Lemma find_split {A} (f : A -> bool) (l : list A) (e : A) :
  find f l = Some e ->
  exists l1 l2,
    l = (l1 ++ e :: l2)%list /\ f e = true /\ forall x, In x l1 -> f x = false.
Proof.
  induction l as [|x l IH]; simpl; [discriminate|].
  destruct (f x) eqn:Hx.
  - intros [= <-]. exists [], l. repeat split; [exact Hx | intros y []].
  - intros H. destruct (IH H) as (l1 & l2 & -> & He & Hl1).
    exists (x :: l1), l2. repeat split; [exact He|].
    intros y [<-|Hy]; [exact Hx | now apply Hl1].
Qed.

Lemma no_Coincide_coincide (n : string) (x : Item) :
  ~ Coincide n x -> coincide n x = false.
Proof.
  intros H. destruct (coincide n x) eqn:E; [|reflexivity].
  now apply coincide_Coincide in E.
Qed.

Lemma coincide_no_Coincide (n : string) (x : Item) :
  coincide n x = false -> ~ Coincide n x.
Proof. intros E H. apply coincide_Coincide in H. congruence. Qed.

(** The first node of the pre-order that matches is the one returned. *)
Lemma buscarArticuloEnIndice_primero (n : string) (indice : Item)
    (l1 l2 : list Item) (e : Item) :
  nodos indice = (l1 ++ e :: l2)%list ->
  Coincide n e ->
  (forall x, In x l1 -> ~ Coincide n x) ->
  buscarArticuloEnIndice indice n = Normal (Some e).
Proof.
  intros Hl He Hl1. rewrite buscarArticuloEnIndice_find. f_equal.
  eapply find_first; [exact Hl | now apply coincide_Coincide |].
  intros x Hx. apply no_Coincide_coincide, Hl1, Hx.
Qed.

(** A title that matches a number matches every prefix of that number. *)
Lemma Coincide_prefijo (n sufijo : string) (item : Item) :
  Coincide (n ++ sufijo) item -> Coincide n item.
Proof.
  intros [Hk (t & pre & post & Ht & ->)]. split; [exact Hk|].
  exists (pre ++ "Artículo " ++ (n ++ sufijo) ++ post), pre, (sufijo ++ post).
  split; [exact Ht|]. now rewrite (append_assoc n sufijo post).
Qed.

(** C3, as amended.  The locator completes normally and returns the first
    node of the index, in pre-order, whose [tipo] is ["articulo"] and whose
    [titulo] contains ["Artículo "] followed by the number, compared byte for
    byte (so with the letter case of the literal); it returns [null] exactly
    when no node is such. *)
Theorem buscarArticuloEnIndice_case_sensitive (n : string) (indice : Item) :
  exists r,
    buscarArticuloEnIndice indice n = Normal r /\
    match r with
    | Some e =>
        exists l1 l2,
          nodos indice = (l1 ++ e :: l2)%list /\
          Coincide n e /\
          (forall x, In x l1 -> ~ Coincide n x)
    | None => forall x, In x (nodos indice) -> ~ Coincide n x
    end.
Proof.
  rewrite buscarArticuloEnIndice_find.
  destruct (find (coincide n) (nodos indice)) as [e|] eqn:Hf;
    eexists; (split; [reflexivity|]); cbn beta iota.
  - apply find_split in Hf as (l1 & l2 & Hl & He & Hl1).
    exists l1, l2. split; [exact Hl|]. split; [now apply coincide_Coincide|].
    intros x Hx. apply coincide_no_Coincide, Hl1, Hx.
  - intros x Hx. apply coincide_no_Coincide.
    eapply find_none; [exact Hf | exact Hx].
Qed.

(** C4.  When the pre-order of the index is [l1 ++ e :: l2], [e] matches and
    no node of [l1] does, the locator returns [e], whatever other matching
    nodes [l2] holds: a node comes before its children, the children in
    their stored order, and the first match ends the search. *)
Theorem buscarArticuloEnIndice_preorder (n : string) (indice : Item)
    (l1 l2 : list Item) (e : Item) :
  nodos indice = (l1 ++ e :: l2)%list ->
  Coincide n e ->
  (forall x, In x l1 -> ~ Coincide n x) ->
  buscarArticuloEnIndice indice n = Normal (Some e)
  /\ forall item, preorden item = item :: flat_map preorden (or_empty (items item)).
Proof.
  intros Hl He Hl1. split.
  - eapply buscarArticuloEnIndice_primero; eassumption.
  - exact preorden_unfold.
Qed.

(** ** The locator and the call stack *)

Lemma profundidad_unfold (item : Item) :
  profundidad item
  = match items item with
    | Some (x :: l) => marcos (x :: l)
    | _ => 0
    end.
Proof.
  destruct item as [k t i [[|x l]|]]; try reflexivity.
  cbn [profundidad items]. unfold marcos. cbn [map list_max fold_right].
  do 2 f_equal. induction l as [|y l IH]; [reflexivity|].
  cbn [map list_max fold_right]. now rewrite IH.
Qed.

(** With room for every level of [l], the search of [l] is the search of
    the model without a stack. *)
Lemma buscarEnItems_pila_suficiente (n : string) (pila : nat) (l : list Item) :
  marcos l <= pila ->
  buscarEnItems_pila n pila (Some l) = bucle_items n l.
Proof.
  revert l; induction pila as [|p IH]; intros l H; [unfold marcos in H; lia|].
  cbn [buscarEnItems_pila or_empty].
  assert (Hl : Forall (fun x => profundidad x <= p) l).
  { unfold marcos in H. apply le_S_n in H.
    apply list_max_le in H. now apply Forall_map in H. }
  clear H. induction Hl as [|x l Hx _ IHl]; [reflexivity|].
  cbn [bucle_pila bucle_items].
  rewrite cuerpo_unfold, es_articulo_buscado_coincide. cbn [bind].
  destruct (coincide n x); [reflexivity|].
  rewrite tiene_subitems_value. cbn [bind].
  rewrite profundidad_unfold in Hx.
  destruct (items x) as [[|y sub]|]; cbn [bind ret]; try exact IHl.
  rewrite (IH _ Hx). unfold buscarEnItems. cbn [or_empty].
  destruct (bucle_items n (y :: sub)) as [[e|]|]; cbn [bind ret];
    [reflexivity | exact IHl | reflexivity].
Qed.

Lemma buscarArticuloEnIndice_pila_suficiente (n : string) (pila : nat) (indice : Item) :
  marcos_de indice <= pila ->
  buscarArticuloEnIndice_pila pila indice n = buscarArticuloEnIndice indice n.
Proof.
  intros H. unfold buscarArticuloEnIndice_pila, buscarArticuloEnIndice, buscarEnItems.
  rewrite <- (buscarEnItems_pila_suficiente n pila _ H).
  destruct pila; reflexivity.
Qed.


(** What the locator returns on a stack it returns without one. *)
Lemma buscarEnItems_pila_Normal (n : string) (pila : nat)
    (v : option (list Item)) (r : option Item) :
  buscarEnItems_pila n pila v = Normal r -> buscarEnItems n v = Normal r.
Proof.
  revert v r; induction pila as [|p IH]; intros v r; cbn [buscarEnItems_pila];
    [discriminate|].
  unfold buscarEnItems.
  induction (or_empty v) as [|x l IHl]; cbn [bucle_pila bucle_items]; [trivial|].
  rewrite cuerpo_unfold, es_articulo_buscado_coincide. cbn [bind].
  destruct (coincide n x); [trivial|].
  rewrite tiene_subitems_value. cbn [bind].
  destruct (match items x with Some (_ :: _) => true | _ => false end).
  - destruct (buscarEnItems_pila n p (items x)) as [[y|]|e'] eqn:E; cbn [bind ret].
    + rewrite (IH _ _ E). trivial.
    + rewrite (IH _ _ E). exact IHl.
    + discriminate.
  - exact IHl.
Qed.



(** C10.  Containment of ["Artículo " + number] makes a number match the
    title of every article whose number it is a prefix of: when the first
    node of the pre-order that matches [n] is an article numbered
    [n ++ sufijo], that node is returned for the query [n], also when a node
    for article [n] itself stands later in the pre-order. *)
Theorem buscarArticuloEnIndice_prefix (n sufijo : string) (indice : Item)
    (l1 l2 : list Item) (e : Item) :
  nodos indice = (l1 ++ e :: l2)%list ->
  Coincide (n ++ sufijo) e ->
  (forall x, In x l1 -> ~ Coincide n x) ->
  Coincide n e /\ buscarArticuloEnIndice indice n = Normal (Some e).
Proof.
  intros Hl He Hl1. apply Coincide_prefijo in He. split; [exact He|].
  eapply buscarArticuloEnIndice_primero; eassumption.
Qed.

(** ** Properties of the amendment resolver *)

Lemma existsb_false_filter {A} (f : A -> bool) (l : list A) :
  existsb f l = false -> filter f l = [].
Proof.
  induction l as [|x l IH]; simpl; [reflexivity|].
  destruct (f x); simpl; [discriminate | exact IH].
Qed.

Lemma existsb_true_filter {A} (f : A -> bool) (l : list A) :
  existsb f l = true -> exists x l', filter f l = x :: l'.
Proof.
  induction l as [|x l IH]; simpl; [discriminate|].
  destruct (f x); simpl; [intros _; now exists x, (filter f l) | exact IH].
Qed.

(** The resolver completes normally, with the summary of the qualifying
    records. *)
Lemma buscarModificacionesArticulo_value
    (Date_parse : string -> Date) (articuloId : string)
    (fechaReferencia : Date) (a : Analisis) :
  exists r,
    buscarModificacionesArticulo Date_parse a articuloId fechaReferencia = Normal r
    /\ Resultado.modificado r
       = existsb (califica Date_parse articuloId fechaReferencia) (registros a)
    /\ Resultado.detalles r
       = map detalle (filter (califica Date_parse articuloId fechaReferencia) (registros a)).
Proof.
  rewrite buscarModificacionesArticulo_bucle.
  destruct (bucle_modificaciones_total Date_parse articuloId fechaReferencia
              (registros a) resultado_inicial) as [r Hr].
  exists r. split; [exact Hr|]. split.
  - now rewrite (bucle_modificaciones_modificado _ _ _ _ _ _ Hr).
  - now rewrite (bucle_modificaciones_detalles _ _ _ _ _ _ Hr).
Qed.

(** C1.  With [Date.parse("")] being [NaN], as in every engine: the resolver
    returns [modificado = true] exactly when some record qualifies (its
    [afectado] is present, not empty and contains [articuloId], and its date
    is on or after [fechaReferencia]); then [fechaUltimaModificacion] is the
    [fecha] of the qualifying record with the maximum date, the first seen
    among equal maxima; and it is [null] when [modificado] is false. *)
Theorem buscarModificacionesArticulo_summary
    (Date_parse : string -> Date) (articuloId : string)
    (fechaReferencia : Date) (a : Analisis) :
  Date_parse "" = None ->
  exists r,
    buscarModificacionesArticulo Date_parse a articuloId fechaReferencia = Normal r
    /\ (Resultado.modificado r = true <->
        exists m, In m (registros a)
                  /\ Califica Date_parse articuloId fechaReferencia m)
    /\ (Resultado.modificado r = true ->
        exists m,
          PrimerMaximo Date_parse
            (filter (califica Date_parse articuloId fechaReferencia) (registros a)) m
          /\ Resultado.fechaUltimaModificacion r = Modificacion.fecha m)
    /\ (Resultado.modificado r = false ->
        Resultado.fechaUltimaModificacion r = None).
Proof.
  intros Hempty.
  destruct (buscarModificacionesArticulo_value Date_parse articuloId
              fechaReferencia a) as (r & Hr & Hmod & _).
  exists r. split; [exact Hr|].
  rewrite buscarModificacionesArticulo_bucle in Hr.
  assert (Hult : ultima_de Date_parse
                   ([] ++ filter (califica Date_parse articuloId fechaReferencia)
                            (registros a)) r).
  { apply bucle_modificaciones_ultima with (r := resultado_inicial);
      [exact Hempty | constructor | reflexivity | exact Hr]. }
  cbn [app] in Hult. rewrite Hmod. split; [apply existsb_califica|]. split.
  - intros H. apply existsb_true_filter in H as (x & l' & Hx).
    rewrite Hx in Hult |- *. exact Hult.
  - intros H. apply existsb_false_filter in H. rewrite H in Hult. exact Hult.
Qed.

(** C5.  A record whose [afectado] contains the article and whose date is
    exactly the reference date qualifies: the result has [modificado = true]
    and the record's entry is in [detalles]. *)
Theorem buscarModificacionesArticulo_inclusive
    (Date_parse : string -> Date) (articuloId : string)
    (a : Analisis) (m : Modificacion.t) (t : Z) :
  In m (registros a) ->
  Contiene (Modificacion.afectado m) articuloId ->
  Date_new Date_parse (Modificacion.fecha m) = Some t ->
  Califica Date_parse articuloId (Some t) m /\
  exists r,
    buscarModificacionesArticulo Date_parse a articuloId (Some t) = Normal r
    /\ Resultado.modificado r = true
    /\ In (detalle m) (Resultado.detalles r).
Proof.
  intros Hin Hc Hd.
  assert (Hq : Califica Date_parse articuloId (Some t) m).
  { split; [exact Hc|]. rewrite Hd. apply Date_ge_refl. }
  split; [exact Hq|].
  destruct (buscarModificacionesArticulo_value Date_parse articuloId (Some t) a)
    as (r & Hr & Hmod & Hdet).
  exists r. split; [exact Hr|]. apply califica_Califica in Hq. split.
  - rewrite Hmod. apply existsb_exists. now exists m.
  - rewrite Hdet. apply in_map, filter_In. now split.
Qed.


(** C7.  Without an amendments collection (no [analisis] property, or no
    [modificaciones] inside it) the resolver returns
    [{modificado: false, fechaUltimaModificacion: null, detalles: []}] and
    does not throw. *)
Theorem buscarModificacionesArticulo_absent
    (Date_parse : string -> Date) (articuloId : string)
    (fechaReferencia : Date) (a : Analisis) :
  analisis a = None
  \/ (exists c, analisis a = Some c /\ modificaciones c = None) ->
  buscarModificacionesArticulo Date_parse a articuloId fechaReferencia
  = Normal (Resultado.mk false None []).
Proof.
  unfold buscarModificacionesArticulo.
  intros [H|(c & H & Hc)]; rewrite H; [reflexivity|].
  cbn. now rewrite Hc.
Qed.

(** ** Properties of the orchestrator *)

Section OrchestratorFacts.
Local Open Scope async_scope.
Variable Date_parse : string -> Date.
Variable axios_get_indice : string -> Completion Item.
Variable axios_get_analisis : string -> Completion Analisis.

(** A [try] whose [catch] block always resolves never rejects. *)
Lemma try_catch_resolves {A} (m : Async A) (h : Error.t -> Async A) :
  (forall e c, exists r c', h e c = (Normal r, c')) ->
  forall c, exists r c', try_catch m h c = (Normal r, c').
Proof.
  intros Hh c. unfold try_catch. destruct (m c) as [[a|e] c1].
  - now exists a, c1.
  - apply Hh.
Qed.

(** A fetch function resolves with the document, or logs and rejects with
    the error of the HTTP client. *)
Lemma obtenerIndice_settles (docId : string) (c : Consola) :
  exists c',
    obtenerIndice axios_get_indice docId c = (axios_get_indice (url_indice docId), c').
Proof.
  unfold obtenerIndice, try_catch, then_, await, resolve.
  destruct (axios_get_indice (url_indice docId)) as [d|e].
  - now exists c.
  - unfold registrar_y_relanzar, then_, console_error, reject, resolve.
    destruct (Error.response e) as [[st da]|]; eexists; reflexivity.
Qed.

Lemma obtenerAnalisisLey_settles (docId : string) (c : Consola) :
  exists c',
    obtenerAnalisisLey axios_get_analisis docId c
    = (axios_get_analisis (url_analisis docId), c').
Proof.
  unfold obtenerAnalisisLey, try_catch, then_, await, resolve.
  destruct (axios_get_analisis (url_analisis docId)) as [d|e].
  - now exists c.
  - unfold registrar_y_relanzar, then_, console_error, reject, resolve.
    destruct (Error.response e) as [[st da]|]; eexists; reflexivity.
Qed.
End OrchestratorFacts.

(** C2.  Whatever the two fetches do, the orchestrator resolves with a result
    object and never rejects.  When the index fetch throws, or the article is
    found and the analysis fetch throws, the result has [encontrado = false]
    and [error] set to the message of the error thrown. *)
Theorem comprobarModificacionArticulo_never_rejects
    (Date_parse : string -> Date)
    (axios_get_indice : string -> Completion Item)
    (axios_get_analisis : string -> Completion Analisis)
    (docId numeroArticulo : string) (fechaReferencia : Date) (c : Consola) :
  exists r c',
    comprobarModificacionArticulo Date_parse axios_get_indice axios_get_analisis
      docId numeroArticulo fechaReferencia c = (Normal r, c')
    /\ match axios_get_indice (url_indice docId) with
       | Throw e =>
           CheckResult.encontrado r = false
           /\ CheckResult.error r = Some (Error.message e)
       | Normal indice =>
           match buscarArticuloEnIndice indice numeroArticulo with
           | Throw e =>
               CheckResult.encontrado r = false
               /\ CheckResult.error r = Some (Error.message e)
           | Normal None =>
               CheckResult.encontrado r = false /\ CheckResult.error r = None
           | Normal (Some articulo) =>
               match axios_get_analisis (url_analisis docId) with
               | Throw e =>
                   CheckResult.encontrado r = false
                   /\ CheckResult.error r = Some (Error.message e)
               | Normal _ =>
                   CheckResult.encontrado r = true /\ CheckResult.error r = None
               end
           end
       end.
Proof.
  unfold comprobarModificacionArticulo, try_catch at 1, then_ at 1.
  destruct (obtenerIndice_settles axios_get_indice docId c) as [c1 ->].
  destruct (axios_get_indice (url_indice docId)) as [indice|e].
  2:{ unfold then_, console_error, resolve. do 2 eexists. now split. }
  unfold then_ at 1, sync at 1.
  rewrite buscarArticuloEnIndice_find.
  destruct (find (coincide numeroArticulo) (nodos indice)) as [articulo|].
  2:{ unfold resolve. do 2 eexists. now split. }
  unfold then_ at 1.
  destruct (obtenerAnalisisLey_settles axios_get_analisis docId c1) as [c2 ->].
  destruct (axios_get_analisis (url_analisis docId)) as [a|e].
  2:{ unfold then_, console_error, resolve. do 2 eexists. now split. }
  unfold then_, sync, resolve.
  destruct (buscarModificacionesArticulo_value Date_parse
              (ToString (id articulo)) fechaReferencia a) as (r & -> & _).
  do 2 eexists. now split.
Qed.

(** ** Witnesses, the counterexample and the scenarios of the specification *)

(** C3: the title ["ARTÍCULO 51"] satisfies the case-insensitive predicate of
    the claim, so the claim has the locator return that node for the query
    ["51"]; the locator returns [null]. *)
Lemma buscarArticuloEnIndice_case_counterexample :
  find (coincide_sin_caja "51") (nodos indice_mayusculas)
  = Some (articulo "ARTÍCULO 51" "a51")
  /\ buscarArticuloEnIndice indice_mayusculas "51" = Normal None.
Proof. split; vm_compute; reflexivity. Qed.



Example buscarArticuloEnIndice_pila_indice_dos :
  buscarArticuloEnIndice_pila 2 indice_dos "51"
  = Normal (Some (articulo "Artículo 51. Ausencia" "a51"))
  /\ buscarArticuloEnIndice_pila 1 indice_dos "51" = Throw RangeError
  /\ buscarArticuloEnIndice_pila 1 indice_prefijo "5"
     = Normal (Some (articulo "Artículo 51" "a51")).
Proof. repeat split. Qed.

Lemma buscarArticuloEnIndice_preorder_witness :
  nodos indice_dos
  = ([apartado "Título I" [articulo "Artículo 51. Ausencia" "a51"]]
       ++ articulo "Artículo 51. Ausencia" "a51"
       :: [articulo "Artículo 51" "b51"])%list
  /\ Coincide "51" (articulo "Artículo 51" "b51")
  /\ buscarArticuloEnIndice indice_dos "51"
     = Normal (Some (articulo "Artículo 51. Ausencia" "a51")).
Proof.
  split; [reflexivity|]. split; [now apply coincide_Coincide|].
  apply (buscarArticuloEnIndice_preorder "51" indice_dos
           [apartado "Título I" [articulo "Artículo 51. Ausencia" "a51"]]
           [articulo "Artículo 51" "b51"]
           (articulo "Artículo 51. Ausencia" "a51")).
  - reflexivity.
  - now apply coincide_Coincide.
  - intros x [<-|[]]. now apply coincide_no_Coincide.
Defined.

Lemma buscarArticuloEnIndice_prefix_witness :
  Coincide "5" (articulo "Artículo 5" "a5")
  /\ In (articulo "Artículo 5" "a5") (nodos indice_prefijo)
  /\ buscarArticuloEnIndice indice_prefijo "5"
     = Normal (Some (articulo "Artículo 51" "a51")).
Proof.
  split; [now apply coincide_Coincide|]. split; [right; left; reflexivity|].
  apply (buscarArticuloEnIndice_prefix "5" "1" indice_prefijo
           [] [articulo "Artículo 5" "a5"] (articulo "Artículo 51" "a51")).
  - reflexivity.
  - now apply coincide_Coincide.
  - intros x [].
Defined.

Lemma buscarModificacionesArticulo_summary_witness :
  Date_parse_iso "" = None
  /\ exists r,
       buscarModificacionesArticulo Date_parse_iso analisis_dos
         "a51" (Date_parse_iso "2019-01-01") = Normal r
       /\ (Resultado.modificado r = true <->
           exists m, In m (registros analisis_dos)
                     /\ Califica Date_parse_iso "a51" (Date_parse_iso "2019-01-01") m)
       /\ (Resultado.modificado r = true ->
           exists m,
             PrimerMaximo Date_parse_iso
               (filter (califica Date_parse_iso "a51" (Date_parse_iso "2019-01-01"))
                  (registros analisis_dos)) m
             /\ Resultado.fechaUltimaModificacion r = Modificacion.fecha m)
       /\ (Resultado.modificado r = false ->
           Resultado.fechaUltimaModificacion r = None).
Proof.
  split; [reflexivity|].
  exact (buscarModificacionesArticulo_summary Date_parse_iso "a51"
           (Date_parse_iso "2019-01-01") analisis_dos eq_refl).
Defined.

Lemma buscarModificacionesArticulo_inclusive_witness :
  Date_parse_iso "2020-01-01" = Some 1577836800000%Z
  /\ Califica Date_parse_iso "a51" (Some 1577836800000%Z)
       (modificacion "a51" "2020-01-01")
  /\ exists r,
       buscarModificacionesArticulo Date_parse_iso analisis_uno
         "a51" (Some 1577836800000%Z) = Normal r
       /\ Resultado.modificado r = true
       /\ In (detalle (modificacion "a51" "2020-01-01")) (Resultado.detalles r).
Proof.
  split; [reflexivity|].
  apply (buscarModificacionesArticulo_inclusive Date_parse_iso "a51"
           analisis_uno (modificacion "a51" "2020-01-01") 1577836800000%Z).
  - left; reflexivity.
  - now apply contiene_Contiene.
  - reflexivity.
Defined.

Lemma buscarModificacionesArticulo_absent_witness :
  buscarModificacionesArticulo Date_parse_iso (mkAnalisis None)
    "a51" (Date_parse_iso "2019-01-01")
  = Normal (Resultado.mk false None [])
  /\ buscarModificacionesArticulo Date_parse_iso
       (mkAnalisis (Some (mkCuerpo None))) "a51" (Date_parse_iso "2019-01-01")
     = Normal (Resultado.mk false None []).
Proof.
  split; apply buscarModificacionesArticulo_absent.
  - left; reflexivity.
  - right. exists (mkCuerpo None). split; reflexivity.
Defined.

(** *** The scenarios of the specification, run through the orchestrator *)

Example escenario_1_modificado :
  comprobarModificacionArticulo Date_parse_iso red_indice
    (red_analisis analisis_uno) docId_CC "51" (Date_parse_iso "2019-01-01") []
  = (Normal (CheckResult.Encontrado (Some "a51") (Some "Artículo 51") true
               (Some "2020-01-01")
               [Detalle.mk (Some "2020-01-01") "No disponible" "No disponible"]),
     []).
Proof. vm_compute. reflexivity. Qed.

Example escenario_2_no_modificado :
  comprobarModificacionArticulo Date_parse_iso red_indice
    (red_analisis analisis_uno) docId_CC "51" (Date_parse_iso "2021-01-01") []
  = (Normal (CheckResult.Encontrado (Some "a51") (Some "Artículo 51") false
               None []),
     []).
Proof. vm_compute. reflexivity. Qed.

Example escenario_3_no_encontrado :
  comprobarModificacionArticulo Date_parse_iso red_indice
    (red_analisis analisis_uno) docId_CC "52" (Date_parse_iso "2019-01-01") []
  = (Normal (CheckResult.NoEncontrado
               "No se encontró el artículo 52 en el documento BOE-A-1889-4763"),
     []).
Proof. vm_compute. reflexivity. Qed.

Example escenario_4_error_de_red :
  comprobarModificacionArticulo Date_parse_iso red_indice
    red_analisis_caida docId_CC "51" (Date_parse_iso "2019-01-01") []
  = (Normal (CheckResult.ConError "Network Error"),
     ["Error al obtener análisis para BOE-A-1889-4763: Network Error";
      "Error al comprobar modificaciones del artículo 51 en BOE-A-1889-4763: Network Error"]).
Proof. vm_compute. reflexivity. Qed.

Example escenario_5_dos_modificaciones :
  comprobarModificacionArticulo Date_parse_iso red_indice
    (red_analisis analisis_dos) docId_CC "51" (Date_parse_iso "2019-01-01") []
  = (Normal (CheckResult.Encontrado (Some "a51") (Some "Artículo 51") true
               (Some "2020-06-01")
               [Detalle.mk (Some "2020-01-01") "No disponible" "No disponible";
                Detalle.mk (Some "2020-06-01") "No disponible" "No disponible"]),
     []).
Proof. vm_compute. reflexivity. Qed.

(** The index fetch fails: the fetch logs the status, the orchestrator logs
    the failure and resolves. *)
Example indice_no_disponible :
  comprobarModificacionArticulo Date_parse_iso red_indice
    (red_analisis analisis_dos) "BOE-X" "51" (Date_parse_iso "2019-01-01") []
  = (Normal (CheckResult.ConError "Request failed with status code 404"),
     ["Error al obtener índice para BOE-X: Request failed with status code 404";
      "Estado: 404, Datos: {}";
      "Error al comprobar modificaciones del artículo 51 en BOE-X: Request failed with status code 404"]).
Proof. vm_compute. reflexivity. Qed.

(** [detalles] follows the collection, not the dates; the record of another
    article is left out. *)
Example detalles_en_orden_de_lectura :
  buscarModificacionesArticulo Date_parse_iso analisis_desordenado
    "a51" (Date_parse_iso "2019-01-01")
  = Normal (Resultado.mk true (Some "2020-06-01")
              [Detalle.mk (Some "2020-06-01") "No disponible" "No disponible";
               Detalle.mk (Some "2020-01-01") "No disponible" "No disponible"]).
Proof. vm_compute. reflexivity. Qed.

(** Among equal maxima the first seen stays. *)
Example empate_primero_visto :
  buscarModificacionesArticulo Date_parse_iso analisis_empate
    "a51" (Date_parse_iso "2019-01-01")
  = Normal (Resultado.mk true (Some "2020-06-01T00:00:00Z")
              [Detalle.mk (Some "2020-01-01") "No disponible" "No disponible";
               Detalle.mk (Some "2020-06-01T00:00:00Z") "No disponible" "No disponible";
               Detalle.mk (Some "2020-06-01") "No disponible" "No disponible"]).
Proof. vm_compute. reflexivity. Qed.

(** The guards are what keeps the locator from throwing: the unguarded call
    on a node without [titulo] throws. *)
Example includes_sin_guarda :
  call_includes (titulo (raiz [])) (patron "51")
  = Throw (TypeError "Cannot read properties of undefined (reading 'includes')")
  /\ es_articulo_buscado "51" (raiz []) = Normal false.
Proof. split; reflexivity. Qed.

(** An empty [afectado] is falsy: the guard passes the record over, whatever
    the identifier. *)
Example afectado_vacio :
  buscarModificacionesArticulo Date_parse_iso
    (con_modificaciones [modificacion "" "2020-01-01"])
    "" (Date_parse_iso "2019-01-01")
  = Normal (Resultado.mk false None []).
Proof. vm_compute. reflexivity. Qed.

(** * Further properties of the code *)

(** ** The amendment resolver *)

Lemma Date_ge_antisym (a b : Date) :
  Date_ge a b = true -> Date_ge b a = true -> a = b.
Proof.
  destruct a, b; simpl; try discriminate. rewrite !Z.leb_le.
  intros. f_equal. lia.
Qed.

Lemma Date_gt_implies_ge (a b : Date) :
  Date_gt a b = true -> Date_ge a b = true.
Proof.
  destruct a, b; simpl; try discriminate. rewrite Z.ltb_lt, Z.leb_le. lia.
Qed.

Lemma filter_Permutation {A} (f : A -> bool) (l l' : list A) :
  Permutation l l' -> Permutation (filter f l) (filter f l').
Proof.
  induction 1 as [|x l l' _ IH|x y l|l l' l'' _ IH1 _ IH2]; simpl.
  - constructor.
  - destruct (f x); [now constructor | exact IH].
  - destruct (f x), (f y); try reflexivity. constructor.
  - now transitivity (filter f l').
Qed.

Lemma existsb_Permutation {A} (f : A -> bool) (l l' : list A) :
  Permutation l l' -> existsb f l = existsb f l'.
Proof.
  induction 1 as [|x l l' _ IH|x y l|l l' l'' _ IH1 _ IH2]; simpl.
  - reflexivity.
  - now rewrite IH.
  - destruct (f x), (f y); reflexivity.
  - congruence.
Qed.

(** The first maximum dominates every record of the list. *)
Lemma PrimerMaximo_domina (Date_parse : string -> Date)
    (l : list Modificacion.t) (m : Modificacion.t) :
  (exists t, Date_new Date_parse (Modificacion.fecha m) = Some t) ->
  PrimerMaximo Date_parse l m ->
  forall x, In x l ->
    Date_ge (Date_new Date_parse (Modificacion.fecha m))
      (Date_new Date_parse (Modificacion.fecha x)) = true.
Proof.
  intros [t Ht] (l1 & l2 & -> & Hantes & Hdespues) x Hx.
  apply in_app_or in Hx as [Hx|[<-|Hx]].
  - apply Date_gt_implies_ge, Hantes, Hx.
  - rewrite Ht. apply Date_ge_refl.
  - apply Hdespues, Hx.
Qed.

(** The resolver's result with all that the loop establishes about it. *)
Lemma buscarModificacionesArticulo_resumen
    (Date_parse : string -> Date) (a : Analisis) (articuloId : string)
    (fechaReferencia : Date) :
  Date_parse "" = None ->
  exists r,
    buscarModificacionesArticulo Date_parse a articuloId fechaReferencia = Normal r
    /\ Resultado.modificado r
       = existsb (califica Date_parse articuloId fechaReferencia) (registros a)
    /\ Resultado.detalles r
       = map detalle (filter (califica Date_parse articuloId fechaReferencia) (registros a))
    /\ ultima_de Date_parse
         (filter (califica Date_parse articuloId fechaReferencia) (registros a)) r.
Proof.
  intros Hempty.
  destruct (buscarModificacionesArticulo_value Date_parse articuloId
              fechaReferencia a) as (r & Hr & Hmod & Hdet).
  exists r. repeat split; try assumption.
  rewrite buscarModificacionesArticulo_bucle in Hr.
  change (filter (califica Date_parse articuloId fechaReferencia) (registros a))
    with ([] ++ filter (califica Date_parse articuloId fechaReferencia)
                  (registros a))%list.
  apply bucle_modificaciones_ultima with (r := resultado_inicial);
    [exact Hempty | constructor | reflexivity | exact Hr].
Qed.

Lemma filter_califica_In (Date_parse : string -> Date) (articuloId : string)
    (fechaReferencia : Date) (l : list Modificacion.t) (x : Modificacion.t) :
  In x (filter (califica Date_parse articuloId fechaReferencia) l) ->
  exists t, Date_new Date_parse (Modificacion.fecha x) = Some t.
Proof.
  intros H. apply filter_In in H as [_ H].
  unfold califica in H. apply andb_true_iff in H as [_ H].
  exact (Date_ge_valid _ _ H).
Qed.

(** C8.  A record that matches the article and whose date string does not
    parse is left out, and the loop goes on: the resolver completes normally
    and its result is the summary of the other records of the collection.
    [modificado] is true exactly when one of them qualifies, [detalles]
    holds their entries in order and none with the date that does not
    parse, and [fechaUltimaModificacion] is the date of the first maximum
    among them, never the date that does not parse.  It is the result on
    the collection without the record. *)
Theorem buscarModificacionesArticulo_unparseable
    (Date_parse : string -> Date) (articuloId : string)
    (fechaReferencia : Date) (antes despues : list Modificacion.t)
    (m : Modificacion.t) (s : string) :
  Contiene (Modificacion.afectado m) articuloId ->
  Modificacion.fecha m = Some s ->
  Date_parse s = None ->
  let con := mkAnalisis (Some (mkCuerpo (Some (antes ++ m :: despues)%list))) in
  let sin := mkAnalisis (Some (mkCuerpo (Some (antes ++ despues)%list))) in
  let otros :=
    filter (califica Date_parse articuloId fechaReferencia) (antes ++ despues) in
  ~ Califica Date_parse articuloId fechaReferencia m
  /\ exists r,
       buscarModificacionesArticulo Date_parse con articuloId fechaReferencia = Normal r
       /\ buscarModificacionesArticulo Date_parse sin articuloId fechaReferencia = Normal r
       /\ (Resultado.modificado r = true <->
           exists x, In x (antes ++ despues)
                     /\ Califica Date_parse articuloId fechaReferencia x)
       /\ Resultado.detalles r = map detalle otros
       /\ (forall d, In d (Resultado.detalles r) -> Detalle.fecha d <> Some s)
       /\ (Date_parse "" = None ->
           (Resultado.modificado r = true ->
            exists x, PrimerMaximo Date_parse otros x
                      /\ Resultado.fechaUltimaModificacion r = Modificacion.fecha x)
           /\ (Resultado.modificado r = false ->
               Resultado.fechaUltimaModificacion r = None)
           /\ Resultado.fechaUltimaModificacion r <> Some s).
Proof.
  intros _ Hs Hp con sin otros.
  assert (Hq : califica Date_parse articuloId fechaReferencia m = false).
  { unfold califica, Date_new. rewrite Hs, Hp. apply andb_false_r. }
  assert (Hcon : filter (califica Date_parse articuloId fechaReferencia)
                   (registros con) = otros).
  { unfold registros, con, otros. cbn [analisis modificaciones or_empty].
    rewrite !filter_app. cbn [filter]. now rewrite Hq. }
  assert (Hotros : forall x, In x otros -> Modificacion.fecha x <> Some s).
  { intros x Hx Hf. apply filter_califica_In in Hx as [t Ht].
    unfold Date_new in Ht. rewrite Hf, Hp in Ht. discriminate. }
  split; [intros H; apply califica_Califica in H; congruence|].
  destruct (buscarModificacionesArticulo_value Date_parse articuloId
              fechaReferencia con) as (r & Hr & Hmod & Hdet).
  assert (Hmod' : Resultado.modificado r
                  = existsb (califica Date_parse articuloId fechaReferencia)
                      (antes ++ despues)).
  { rewrite Hmod. unfold registros, con. cbn [analisis modificaciones or_empty].
    rewrite !existsb_app. cbn [existsb]. now rewrite Hq. }
  rewrite Hcon in Hdet.
  exists r. split; [exact Hr|]. split; [|split; [|split; [|split]]].
  - rewrite <- Hr. rewrite !buscarModificacionesArticulo_bucle.
    rewrite bucle_modificaciones_filter.
    rewrite (bucle_modificaciones_filter _ _ _ (registros con)).
    rewrite Hcon. reflexivity.
  - rewrite Hmod'. apply existsb_califica.
  - exact Hdet.
  - intros d Hd. rewrite Hdet in Hd. apply in_map_iff in Hd as (x & <- & Hx).
    exact (Hotros x Hx).
  - intros Hempty.
    destruct (buscarModificacionesArticulo_resumen Date_parse con articuloId
                fechaReferencia Hempty) as (r' & Hr' & _ & _ & Hult).
    rewrite Hr in Hr'. injection Hr' as <-. rewrite Hcon in Hult.
    assert (Hnone : Resultado.modificado r = false ->
                    Resultado.fechaUltimaModificacion r = None).
    { rewrite Hmod'. intros H. apply existsb_false_filter in H.
      fold otros in H. rewrite H in Hult. exact Hult. }
    assert (Hsome : Resultado.modificado r = true ->
                    exists x, PrimerMaximo Date_parse otros x
                              /\ Resultado.fechaUltimaModificacion r
                                 = Modificacion.fecha x).
    { rewrite Hmod'. intros H. apply existsb_true_filter in H as (x & l' & Hx).
      fold otros in Hx. rewrite Hx in Hult |- *. exact Hult. }
    split; [exact Hsome|]. split; [exact Hnone|].
    destruct (Resultado.modificado r) eqn:E.
    + destruct (Hsome eq_refl) as (x & Hx & ->).
      apply Hotros. eapply PrimerMaximo_In. exact Hx.
    + rewrite (Hnone eq_refl). discriminate.
Qed.

Lemma buscarModificacionesArticulo_unparseable_witness :
  Date_parse_iso "sin fecha" = None
  /\ ~ Califica Date_parse_iso "a51" (Date_parse_iso "2019-01-01")
         (modificacion "a51" "sin fecha")
  /\ exists r,
       buscarModificacionesArticulo Date_parse_iso analisis_sin_fecha
         "a51" (Date_parse_iso "2019-01-01") = Normal r
       /\ buscarModificacionesArticulo Date_parse_iso analisis_dos
            "a51" (Date_parse_iso "2019-01-01") = Normal r
       /\ (Resultado.modificado r = true <->
           exists x, In x [modificacion "a51" "2020-01-01";
                           modificacion "a51" "2020-06-01"]
                     /\ Califica Date_parse_iso "a51" (Date_parse_iso "2019-01-01") x)
       /\ Resultado.detalles r
          = map detalle
              (filter (califica Date_parse_iso "a51" (Date_parse_iso "2019-01-01"))
                 [modificacion "a51" "2020-01-01"; modificacion "a51" "2020-06-01"])
       /\ (forall d, In d (Resultado.detalles r) ->
             Detalle.fecha d <> Some "sin fecha")
       /\ (Date_parse_iso "" = None ->
           (Resultado.modificado r = true ->
            exists x,
              PrimerMaximo Date_parse_iso
                (filter (califica Date_parse_iso "a51" (Date_parse_iso "2019-01-01"))
                   [modificacion "a51" "2020-01-01"; modificacion "a51" "2020-06-01"]) x
              /\ Resultado.fechaUltimaModificacion r = Modificacion.fecha x)
           /\ (Resultado.modificado r = false ->
               Resultado.fechaUltimaModificacion r = None)
           /\ Resultado.fechaUltimaModificacion r <> Some "sin fecha").
Proof.
  split; [reflexivity|].
  apply (buscarModificacionesArticulo_unparseable Date_parse_iso "a51"
           (Date_parse_iso "2019-01-01")
           [modificacion "a51" "2020-01-01"] [modificacion "a51" "2020-06-01"]
           (modificacion "a51" "sin fecha") "sin fecha").
  - now apply contiene_Contiene.
  - reflexivity.
  - reflexivity.
Defined.

(** The record in between is passed over and the two around it are
    reported. *)
Example sin_fecha_en_medio :
  buscarModificacionesArticulo Date_parse_iso analisis_sin_fecha "a51"
    (Date_parse_iso "2019-01-01")
  = Normal (Resultado.mk true (Some "2020-06-01")
              [Detalle.mk (Some "2020-01-01") "No disponible" "No disponible";
               Detalle.mk (Some "2020-06-01") "No disponible" "No disponible"]).
Proof. vm_compute. reflexivity. Qed.

(** X1.  The summary is coherent with its details: [modificado] is true
    exactly when [detalles] is not empty, and then
    [fechaUltimaModificacion] is the [fecha] of one of the entries of
    [detalles], and no entry of [detalles] has a later date. *)
Theorem buscarModificacionesArticulo_coherent
    (Date_parse : string -> Date) (a : Analisis) (articuloId : string)
    (fechaReferencia : Date) :
  Date_parse "" = None ->
  exists r,
    buscarModificacionesArticulo Date_parse a articuloId fechaReferencia = Normal r
    /\ (Resultado.modificado r = true <-> Resultado.detalles r <> [])
    /\ (Resultado.modificado r = true ->
        exists d,
          In d (Resultado.detalles r)
          /\ Detalle.fecha d = Resultado.fechaUltimaModificacion r
          /\ forall d', In d' (Resultado.detalles r) ->
               Date_ge (Date_new Date_parse (Detalle.fecha d))
                 (Date_new Date_parse (Detalle.fecha d')) = true).
Proof.
  intros Hempty.
  destruct (buscarModificacionesArticulo_resumen Date_parse a articuloId
              fechaReferencia Hempty) as (r & Hr & Hmod & Hdet & Hult).
  exists r. split; [exact Hr|]. rewrite Hmod, Hdet.
  set (Q := filter (califica Date_parse articuloId fechaReferencia) (registros a)) in *.
  split.
  - split.
    + intros H. apply existsb_true_filter in H as (x & l' & Hx).
      fold Q in Hx. rewrite Hx. discriminate.
    + intros H. destruct (existsb _ _) eqn:E; [reflexivity|].
      apply existsb_false_filter in E. fold Q in E. now rewrite E in H.
  - intros H. apply existsb_true_filter in H as (x & l' & Hx). fold Q in Hx.
    unfold ultima_de in Hult. rewrite Hx in Hult.
    destruct Hult as (m & Hmax & Hm). rewrite <- Hx in Hmax.
    assert (Hin : In m Q) by (eapply PrimerMaximo_In; exact Hmax).
    exists (detalle m). split; [now apply in_map|]. split; [now rewrite Hm|].
    intros d' Hd'. apply in_map_iff in Hd' as (x' & <- & Hx').
    cbn [detalle Detalle.fecha].
    eapply PrimerMaximo_domina; [|exact Hmax|exact Hx'].
    eapply filter_califica_In. exact Hin.
Qed.

(** X2.  A later reference date never reports more: when [fecha2] is on or
    after [fecha1], every entry of [detalles] for [fecha2] is an entry of
    [detalles] for [fecha1], and [modificado] for [fecha2] implies
    [modificado] for [fecha1]. *)
Theorem buscarModificacionesArticulo_monotone
    (Date_parse : string -> Date) (a : Analisis) (articuloId : string)
    (fecha1 fecha2 : Date) :
  Date_ge fecha2 fecha1 = true ->
  exists r1 r2,
    buscarModificacionesArticulo Date_parse a articuloId fecha1 = Normal r1
    /\ buscarModificacionesArticulo Date_parse a articuloId fecha2 = Normal r2
    /\ (Resultado.modificado r2 = true -> Resultado.modificado r1 = true)
    /\ (forall d, In d (Resultado.detalles r2) -> In d (Resultado.detalles r1)).
Proof.
  intros Hge.
  destruct (buscarModificacionesArticulo_value Date_parse articuloId fecha1 a)
    as (r1 & Hr1 & Hmod1 & Hdet1).
  destruct (buscarModificacionesArticulo_value Date_parse articuloId fecha2 a)
    as (r2 & Hr2 & Hmod2 & Hdet2).
  exists r1, r2. split; [exact Hr1|]. split; [exact Hr2|].
  assert (Himp : forall m, califica Date_parse articuloId fecha2 m = true ->
                           califica Date_parse articuloId fecha1 m = true).
  { intros m. unfold califica. rewrite !andb_true_iff. intros [Hc Hd].
    split; [exact Hc|].
    destruct (Date_new Date_parse (Modificacion.fecha m)) as [t|],
      fecha1 as [t1|], fecha2 as [t2|]; simpl in *; try discriminate.
    rewrite Z.leb_le in *. lia. }
  rewrite Hmod1, Hmod2, Hdet1, Hdet2. split.
  - rewrite !existsb_exists. intros (m & Hin & Hm). exists m. auto.
  - intros d Hd. apply in_map_iff in Hd as (m & <- & Hm).
    apply filter_In in Hm as [Hin Hm]. apply in_map, filter_In. auto.
Qed.

(** X3.  With an invalid reference date (a [Date] whose time value is [NaN])
    nothing qualifies: whatever the analysis, the result is
    [{modificado: false, fechaUltimaModificacion: null, detalles: []}]. *)
Theorem buscarModificacionesArticulo_invalid_reference
    (Date_parse : string -> Date) (a : Analisis) (articuloId : string) :
  buscarModificacionesArticulo Date_parse a articuloId None
  = Normal (Resultado.mk false None []).
Proof.
  rewrite buscarModificacionesArticulo_bucle, bucle_modificaciones_filter.
  replace (filter (califica Date_parse articuloId None) (registros a))
    with (@nil Modificacion.t); [reflexivity|].
  symmetry. apply existsb_false_filter.
  induction (registros a) as [|m l IH]; simpl; [reflexivity|].
  rewrite IH. unfold califica.
  destruct (Date_new Date_parse (Modificacion.fecha m));
    now rewrite andb_false_r.
Qed.

(** X4.  The order of the amendments collection matters for the order of
    [detalles] and for ties only: two analyses whose collections are
    permutations of each other give the same [modificado], the same entries
    in [detalles] up to order, and last-modification dates with the same
    time value. *)
Theorem buscarModificacionesArticulo_permutation
    (Date_parse : string -> Date) (a a' : Analisis) (articuloId : string)
    (fechaReferencia : Date) :
  Date_parse "" = None ->
  Permutation (registros a) (registros a') ->
  exists r r',
    buscarModificacionesArticulo Date_parse a articuloId fechaReferencia = Normal r
    /\ buscarModificacionesArticulo Date_parse a' articuloId fechaReferencia = Normal r'
    /\ Resultado.modificado r = Resultado.modificado r'
    /\ Permutation (Resultado.detalles r) (Resultado.detalles r')
    /\ Date_new Date_parse (Resultado.fechaUltimaModificacion r)
       = Date_new Date_parse (Resultado.fechaUltimaModificacion r').
Proof.
  intros Hempty Hperm.
  destruct (buscarModificacionesArticulo_resumen Date_parse a articuloId
              fechaReferencia Hempty) as (r & Hr & Hmod & Hdet & Hult).
  destruct (buscarModificacionesArticulo_resumen Date_parse a' articuloId
              fechaReferencia Hempty) as (r' & Hr' & Hmod' & Hdet' & Hult').
  exists r, r'. split; [exact Hr|]. split; [exact Hr'|].
  set (f := califica Date_parse articuloId fechaReferencia) in *.
  assert (HQ : Permutation (filter f (registros a)) (filter f (registros a')))
    by now apply filter_Permutation.
  assert (Hval : forall l x, In x (filter f l) ->
                   exists t, Date_new Date_parse (Modificacion.fecha x) = Some t)
    by (intros l x; apply filter_califica_In).
  split; [|split].
  - rewrite Hmod, Hmod'. now apply existsb_Permutation.
  - rewrite Hdet, Hdet'. now apply Permutation_map.
  - specialize (Hval (registros a)) as Hv. specialize (Hval (registros a')) as Hv'.
    unfold ultima_de in Hult, Hult'.
    destruct (filter f (registros a)) as [|x Q].
    + apply Permutation_nil in HQ. rewrite HQ in Hult'. now rewrite Hult, Hult'.
    + destruct (filter f (registros a')) as [|x' Q'].
      * apply Permutation_sym, Permutation_nil in HQ. discriminate.
      * destruct Hult as (m & Hmax & ->). destruct Hult' as (m' & Hmax' & ->).
        assert (Hm : In m (x :: Q)) by (eapply PrimerMaximo_In; exact Hmax).
        assert (Hm' : In m' (x' :: Q')) by (eapply PrimerMaximo_In; exact Hmax').
        apply Date_ge_antisym.
        -- eapply PrimerMaximo_domina; [exact (Hv m Hm) | exact Hmax |].
           eapply Permutation_in; [apply Permutation_sym; exact HQ | exact Hm'].
        -- eapply PrimerMaximo_domina; [exact (Hv' m' Hm') | exact Hmax' |].
           eapply Permutation_in; [exact HQ | exact Hm].
Qed.

(** X5.  The test on [afectado] is containment, not equality: a record that
    counts for an identifier counts for every substring of that identifier.
    The entries of [detalles] for [pre ++ ident ++ post] are entries of
    [detalles] for [ident], and [modificado] for the longer identifier
    implies [modificado] for [ident]. *)
Theorem buscarModificacionesArticulo_substring_id
    (Date_parse : string -> Date) (a : Analisis) (pre ident post : string)
    (fechaReferencia : Date) :
  exists r1 r2,
    buscarModificacionesArticulo Date_parse a ident fechaReferencia = Normal r1
    /\ buscarModificacionesArticulo Date_parse a (pre ++ ident ++ post)
         fechaReferencia = Normal r2
    /\ (Resultado.modificado r2 = true -> Resultado.modificado r1 = true)
    /\ (forall d, In d (Resultado.detalles r2) -> In d (Resultado.detalles r1)).
Proof.
  destruct (buscarModificacionesArticulo_value Date_parse ident
              fechaReferencia a) as (r1 & Hr1 & Hmod1 & Hdet1).
  destruct (buscarModificacionesArticulo_value Date_parse (pre ++ ident ++ post)
              fechaReferencia a) as (r2 & Hr2 & Hmod2 & Hdet2).
  exists r1, r2. split; [exact Hr1|]. split; [exact Hr2|].
  assert (Himp : forall m,
             califica Date_parse (pre ++ ident ++ post) fechaReferencia m = true ->
             califica Date_parse ident fechaReferencia m = true).
  { intros m. unfold califica. rewrite !andb_true_iff. intros [Hc Hd].
    split; [|exact Hd].
    apply contiene_Contiene in Hc as (s & Hs & Hne & Hi).
    apply contiene_Contiene. exists s. split; [exact Hs|]. split; [exact Hne|].
    apply includes_true_iff in Hi as (p1 & p2 & ->).
    apply includes_true_iff. exists (p1 ++ pre), (post ++ p2).
    now rewrite !append_assoc. }
  rewrite Hmod1, Hmod2, Hdet1, Hdet2. split.
  - rewrite !existsb_exists. intros (m & Hin & Hm). exists m. auto.
  - intros d Hd. apply in_map_iff in Hd as (m & <- & Hm).
    apply filter_In in Hm as [Hin Hm]. apply in_map, filter_In. auto.
Qed.

(** ** The fetch functions and the orchestrator *)

Lemma registrar_y_relanzar_value {A} (linea : string) (error : Error.t) (c : Consola) :
  registrar_y_relanzar (A := A) linea error c
  = (Throw error,
     (c ++ lineas_de_fetch linea (@Throw A error))%list).
Proof.
  unfold registrar_y_relanzar, then_, console_error, reject, resolve, lineas_de_fetch.
  destruct (Error.response error) as [[st da]|]; cbn.
  - now rewrite <- app_assoc.
  - reflexivity.
Qed.

Lemma obtenerIndice_value (axios_get_indice : string -> Completion Item)
    (docId : string) (c : Consola) :
  obtenerIndice axios_get_indice docId c
  = (axios_get_indice (url_indice docId),
     (c ++ lineas_de_fetch ("Error al obtener índice para " ++ docId)
             (axios_get_indice (url_indice docId)))%list).
Proof.
  unfold obtenerIndice, try_catch, then_, await, resolve.
  destruct (axios_get_indice (url_indice docId)) as [d|e].
  - cbn. now rewrite app_nil_r.
  - apply registrar_y_relanzar_value.
Qed.

Lemma obtenerAnalisisLey_value (axios_get_analisis : string -> Completion Analisis)
    (docId : string) (c : Consola) :
  obtenerAnalisisLey axios_get_analisis docId c
  = (axios_get_analisis (url_analisis docId),
     (c ++ lineas_de_fetch ("Error al obtener análisis para " ++ docId)
             (axios_get_analisis (url_analisis docId)))%list).
Proof.
  unfold obtenerAnalisisLey, try_catch, then_, await, resolve.
  destruct (axios_get_analisis (url_analisis docId)) as [d|e].
  - cbn. now rewrite app_nil_r.
  - apply registrar_y_relanzar_value.
Qed.

(** X6.  The three fetch functions settle as [axios.get] does: they resolve
    with the document it delivers and write nothing, or they reject with the
    very error it threw, after writing their message and, when the error has
    a response, the status line; the console lines written before stay. *)
Theorem fetch_functions_transparent
    (axios_get_indice : string -> Completion Item)
    (axios_get_analisis : string -> Completion Analisis)
    (Datos : Type) (axios_get_bloque : string -> Completion Datos)
    (docId idBloque : string) (c : Consola) :
  obtenerIndice axios_get_indice docId c
  = (axios_get_indice (url_indice docId),
     (c ++ lineas_de_fetch ("Error al obtener índice para " ++ docId)
             (axios_get_indice (url_indice docId)))%list)
  /\ obtenerAnalisisLey axios_get_analisis docId c
     = (axios_get_analisis (url_analisis docId),
        (c ++ lineas_de_fetch ("Error al obtener análisis para " ++ docId)
                (axios_get_analisis (url_analisis docId)))%list)
  /\ obtenerBloque Datos axios_get_bloque docId idBloque c
     = (axios_get_bloque (url_bloque docId idBloque),
        (c ++ lineas_de_fetch
                ("Error al obtener bloque " ++ idBloque ++ " del documento " ++ docId)
                (axios_get_bloque (url_bloque docId idBloque)))%list).
Proof.
  split; [apply obtenerIndice_value|]. split; [apply obtenerAnalisisLey_value|].
  unfold obtenerBloque, try_catch, then_, await, resolve.
  destruct (axios_get_bloque (url_bloque docId idBloque)) as [d|e].
  - cbn. now rewrite app_nil_r.
  - apply registrar_y_relanzar_value.
Qed.

(** The orchestrator's run, case by case. *)
Lemma comprobarModificacionArticulo_value
    (Date_parse : string -> Date)
    (axios_get_indice : string -> Completion Item)
    (axios_get_analisis : string -> Completion Analisis)
    (docId numeroArticulo : string) (fechaReferencia : Date) (c : Consola) :
  comprobarModificacionArticulo Date_parse axios_get_indice axios_get_analisis
    docId numeroArticulo fechaReferencia c
  = (Normal
       match axios_get_indice (url_indice docId) with
       | Throw e => CheckResult.ConError (Error.message e)
       | Normal indice =>
           match buscarArticuloEnIndice indice numeroArticulo with
           | Throw e => CheckResult.ConError (Error.message e)
           | Normal None =>
               CheckResult.NoEncontrado
                 ("No se encontró el artículo " ++ numeroArticulo
                    ++ " en el documento " ++ docId)
           | Normal (Some articulo) =>
               match axios_get_analisis (url_analisis docId) with
               | Throw e => CheckResult.ConError (Error.message e)
               | Normal a =>
                   match buscarModificacionesArticulo Date_parse a
                           (ToString (id articulo)) fechaReferencia with
                   | Throw e => CheckResult.ConError (Error.message e)
                   | Normal m =>
                       CheckResult.Encontrado (id articulo) (titulo articulo)
                         (Resultado.modificado m)
                         (Resultado.fechaUltimaModificacion m)
                         (Resultado.detalles m)
                   end
               end
           end
       end,
     (c ++ traza_de_comprobar axios_get_indice axios_get_analisis
             docId numeroArticulo)%list).
Proof.
  unfold comprobarModificacionArticulo, traza_de_comprobar,
    try_catch at 1, then_ at 1.
  rewrite obtenerIndice_value.
  destruct (axios_get_indice (url_indice docId)) as [indice|e].
  2:{ unfold then_, console_error, resolve, linea_de_error.
      now rewrite <- app_assoc. }
  cbn [lineas_de_fetch]. rewrite app_nil_r.
  unfold then_ at 1, sync at 1.
  rewrite buscarArticuloEnIndice_find.
  destruct (find (coincide numeroArticulo) (nodos indice)) as [articulo|].
  2:{ unfold resolve. now rewrite app_nil_r. }
  unfold then_ at 1. rewrite obtenerAnalisisLey_value.
  destruct (axios_get_analisis (url_analisis docId)) as [a|e].
  2:{ unfold then_, console_error, resolve, linea_de_error.
      now rewrite <- app_assoc. }
  cbn [lineas_de_fetch]. rewrite app_nil_r.
  unfold then_, sync, resolve.
  destruct (buscarModificacionesArticulo_value Date_parse
              (ToString (id articulo)) fechaReferencia a) as (r & -> & _).
  reflexivity.
Qed.

(** X7.  The analysis is fetched only for an article that was found: when
    the index fetch throws, or the locator returns [null], the result and
    the console do not depend on what the analysis endpoint would do. *)
Theorem comprobarModificacionArticulo_skips_analysis
    (Date_parse : string -> Date)
    (axios_get_indice : string -> Completion Item)
    (axios_get_analisis axios_get_analisis' : string -> Completion Analisis)
    (docId numeroArticulo : string) (fechaReferencia : Date) (c : Consola) :
  match axios_get_indice (url_indice docId) with
  | Throw _ => True
  | Normal indice => buscarArticuloEnIndice indice numeroArticulo = Normal None
  end ->
  comprobarModificacionArticulo Date_parse axios_get_indice axios_get_analisis
    docId numeroArticulo fechaReferencia c
  = comprobarModificacionArticulo Date_parse axios_get_indice axios_get_analisis'
      docId numeroArticulo fechaReferencia c.
Proof.
  intros H. rewrite !comprobarModificacionArticulo_value.
  unfold traza_de_comprobar.
  destruct (axios_get_indice (url_indice docId)) as [indice|e]; [|reflexivity].
  now rewrite H.
Qed.

(** The orchestrator over the code's own locator and resolver. *)
Lemma comprobarModificacionArticulo_con_codigo
    (Date_parse : string -> Date)
    (axios_get_indice : string -> Completion Item)
    (axios_get_analisis : string -> Completion Analisis)
    (docId numeroArticulo : string) (fechaReferencia : Date) :
  comprobarModificacionArticulo Date_parse axios_get_indice axios_get_analisis
    docId numeroArticulo fechaReferencia
  = comprobarModificacionArticulo_con buscarArticuloEnIndice
      (buscarModificacionesArticulo Date_parse)
      axios_get_indice axios_get_analisis docId numeroArticulo fechaReferencia.
Proof. reflexivity. Qed.


(** With room on the stack the orchestrator is the one of the model without
    a stack. *)
Lemma comprobarModificacionArticulo_pila_suficiente (pila : nat)
    (Date_parse : string -> Date)
    (axios_get_indice : string -> Completion Item)
    (axios_get_analisis : string -> Completion Analisis)
    (docId numeroArticulo : string) (fechaReferencia : Date) (c : Consola) :
  match axios_get_indice (url_indice docId) with
  | Normal indice => marcos_de indice <= pila
  | Throw _ => True
  end ->
  comprobarModificacionArticulo_pila pila Date_parse axios_get_indice
    axios_get_analisis docId numeroArticulo fechaReferencia c
  = comprobarModificacionArticulo Date_parse axios_get_indice
      axios_get_analisis docId numeroArticulo fechaReferencia c.
Proof.
  intros H. unfold comprobarModificacionArticulo_pila.
  rewrite comprobarModificacionArticulo_con_codigo.
  unfold comprobarModificacionArticulo_con, try_catch, then_.
  rewrite obtenerIndice_value.
  destruct (axios_get_indice (url_indice docId)) as [indice|e]; [|reflexivity].
  unfold sync.
  now rewrite (buscarArticuloEnIndice_pila_suficiente numeroArticulo pila indice H).
Qed.

(** The index is served and nothing fails on the network, yet its nesting
    exhausts the stack: the result is an [error] and one line is written. *)
Example indice_demasiado_hondo :
  comprobarModificacionArticulo_pila 2 Date_parse_iso (red_indice_hondo 2)
    (red_analisis analisis_uno) docId_CC "51" (Date_parse_iso "2019-01-01") []
  = (Normal (CheckResult.ConError "Maximum call stack size exceeded"),
     ["Error al comprobar modificaciones del artículo 51 en BOE-A-1889-4763: Maximum call stack size exceeded"]).
Proof. vm_compute. reflexivity. Qed.

(** X9.  When both fetches resolve and the article is found, the result has
    [encontrado = true], echoes the [id] and [titulo] of the entry found and
    carries the resolver's summary for that [id] converted to a string: an
    entry without [id] is looked up in the amendments as the text
    [undefined]. *)
Theorem comprobarModificacionArticulo_found
    (Date_parse : string -> Date)
    (axios_get_indice : string -> Completion Item)
    (axios_get_analisis : string -> Completion Analisis)
    (docId numeroArticulo : string) (fechaReferencia : Date) (c : Consola)
    (indice articulo : Item) (a : Analisis) :
  axios_get_indice (url_indice docId) = Normal indice ->
  buscarArticuloEnIndice indice numeroArticulo = Normal (Some articulo) ->
  axios_get_analisis (url_analisis docId) = Normal a ->
  exists m,
    buscarModificacionesArticulo Date_parse a
      (match id articulo with Some s => s | None => "undefined" end)
      fechaReferencia = Normal m
    /\ comprobarModificacionArticulo Date_parse axios_get_indice axios_get_analisis
         docId numeroArticulo fechaReferencia c
       = (Normal (CheckResult.Encontrado (id articulo) (titulo articulo)
                    (Resultado.modificado m)
                    (Resultado.fechaUltimaModificacion m)
                    (Resultado.detalles m)),
          c).
Proof.
  intros Hi Hb Ha. rewrite comprobarModificacionArticulo_value.
  unfold traza_de_comprobar. rewrite Hi, Hb, Ha.
  destruct (buscarModificacionesArticulo_value Date_parse
              (ToString (id articulo)) fechaReferencia a) as (m & Hm & _).
  exists m. split; [exact Hm|]. now rewrite Hm, app_nil_r.
Qed.

(** ** The report *)

(** The classification from any state: each array grows by the results of
    its class, each counter by their number. *)
Lemma clasificar_desde (rs : list Entrada.t) (k : Clasificacion.t) :
  fold_left clasificar_uno rs k
  = Clasificacion.mk
      (Clasificacion.articulosModificados k
       + Z.of_nat (List.length (filter (es_de_clase EnModificados) rs)))
      (Clasificacion.articulosNoEncontrados k
       + Z.of_nat (List.length (filter (es_de_clase EnNoEncontrados) rs)))
      (Clasificacion.articulosConError k
       + Z.of_nat (List.length (filter (es_de_clase EnConError) rs)))
      (Clasificacion.modificados k ++ filter (es_de_clase EnModificados) rs)
      (Clasificacion.noModificados k ++ filter (es_de_clase EnNoModificados) rs)
      (Clasificacion.noEncontrados k ++ filter (es_de_clase EnNoEncontrados) rs)
      (Clasificacion.conError k ++ filter (es_de_clase EnConError) rs).
Proof.
  revert k; induction rs as [|r rs IH]; intros [nM nN nE ms nms nes es].
  - cbn. now rewrite !Z.add_0_r, !app_nil_r.
  - cbn [fold_left]. rewrite IH. clear IH.
    unfold clasificar_uno, es_de_clase, clase, get_modificado.
    destruct r as [art [msg|i t [|] f d|[|ch e]] doc nom];
      cbn -[Z.add Z.of_nat]; rewrite <- ?app_assoc; cbn [app];
      f_equal; lia.
Qed.

Lemma length_por_clase (rs : list Entrada.t) :
  List.length rs
  = List.length (filter (es_de_clase EnModificados) rs)
    + List.length (filter (es_de_clase EnNoModificados) rs)
    + List.length (filter (es_de_clase EnNoEncontrados) rs)
    + List.length (filter (es_de_clase EnConError) rs).
Proof.
  induction rs as [|r rs IH]; [reflexivity|].
  cbn [filter]. unfold es_de_clase in *.
  destruct (clase r); cbn [List.length]; lia.
Qed.

(** X10.  The report accounts for every result exactly once: each of the
    four arrays holds the results of its class in their original order, the
    three counters are the lengths of their arrays, and the number of
    unmodified articles that the summary computes by subtraction is the
    length of [noModificados].  A failed check with an empty message is
    classed with the articles not found. *)
Theorem clasificar_accounts (resultados : list Entrada.t) :
  let k := clasificar resultados in
  Clasificacion.modificados k = filter (es_de_clase EnModificados) resultados
  /\ Clasificacion.noModificados k = filter (es_de_clase EnNoModificados) resultados
  /\ Clasificacion.noEncontrados k = filter (es_de_clase EnNoEncontrados) resultados
  /\ Clasificacion.conError k = filter (es_de_clase EnConError) resultados
  /\ Clasificacion.articulosModificados k
     = Z.of_nat (List.length (Clasificacion.modificados k))
  /\ Clasificacion.articulosNoEncontrados k
     = Z.of_nat (List.length (Clasificacion.noEncontrados k))
  /\ Clasificacion.articulosConError k
     = Z.of_nat (List.length (Clasificacion.conError k))
  /\ (Z.of_nat (List.length resultados)
      - Clasificacion.articulosModificados k
      - Clasificacion.articulosNoEncontrados k
      - Clasificacion.articulosConError k
      = Z.of_nat (List.length (Clasificacion.noModificados k)))%Z.
Proof.
  unfold clasificar. rewrite clasificar_desde. cbn -[Z.of_nat Z.sub].
  repeat split. rewrite (length_por_clase resultados) at 1. lia.
Qed.

(** X11.  The report names no article that was found and not modified: such
    results only count in the summary.  Two lists of results of the same
    length with the same modified, not found and failed results give the
    same report. *)
Theorem contenido_del_informe_omits_unmodified
    (resultados resultados' : list Entrada.t)
    (fechaFormateada fechaInforme : string) :
  List.length resultados = List.length resultados' ->
  filter (es_de_clase EnModificados) resultados
  = filter (es_de_clase EnModificados) resultados' ->
  filter (es_de_clase EnNoEncontrados) resultados
  = filter (es_de_clase EnNoEncontrados) resultados' ->
  filter (es_de_clase EnConError) resultados
  = filter (es_de_clase EnConError) resultados' ->
  contenido_del_informe resultados fechaFormateada fechaInforme
  = contenido_del_informe resultados' fechaFormateada fechaInforme.
Proof.
  intros Hlen Hm Hn He. unfold contenido_del_informe, clasificar.
  rewrite !clasificar_desde. cbn -[Z.of_nat Z.sub Z.add append].
  now rewrite Hlen, Hm, Hn, He.
Qed.

(** [generarInforme] has no [catch]: it resolves with the path of the
    file, after printing it, exactly when the three calls of [format] and the
    write succeed; otherwise it rejects with the first error thrown and
    prints nothing.  The text it writes is [contenido_del_informe] of the
    results. *)
Lemma generarInforme_value
    (format_es format : Date -> string -> Completion string)
    (ahora ahora' : Date) (path_join : string -> string -> string)
    (fs_writeFile : string -> string -> Completion unit)
    (resultados : list Entrada.t) (fechaReferencia : Date)
    (outputPath : string) (c : Consola) :
  generarInforme format_es format ahora ahora' path_join fs_writeFile
    resultados fechaReferencia outputPath c
  = match format_es fechaReferencia "dd/MM/yyyy" with
    | Throw e => (Throw e, c)
    | Normal fechaFormateada =>
        match format_es ahora "dd/MM/yyyy HH:mm:ss" with
        | Throw e => (Throw e, c)
        | Normal fechaInforme =>
            match format ahora' "yyyyMMdd_HHmmss" with
            | Throw e => (Throw e, c)
            | Normal sello =>
                let ruta := path_join outputPath ("informe_" ++ sello ++ ".md") in
                match fs_writeFile ruta
                        (contenido_del_informe resultados fechaFormateada
                           fechaInforme) with
                | Throw e => (Throw e, c)
                | Normal _ =>
                    (Normal ruta, (c ++ [("Informe generado en: " ++ ruta)%string])%list)
                end
            end
        end
    end.
Proof.
  unfold generarInforme, then_, sync, await, console_log, resolve.
  destruct (format_es fechaReferencia "dd/MM/yyyy"); [|reflexivity].
  destruct (format_es ahora "dd/MM/yyyy HH:mm:ss"); [|reflexivity].
  destruct (format ahora' "yyyyMMdd_HHmmss"); [|reflexivity].
  cbn zeta. destruct (fs_writeFile _ _); reflexivity.
Qed.

(** ** The readers *)

Lemma todos_spec (p : ascii -> bool) (s : string) :
  todos p s = true <->
  s <> "" /\ forall a, In a (list_ascii_of_string s) -> p a = true.
Proof.
  unfold todos. rewrite andb_true_iff, negb_true_iff, String.eqb_neq, forallb_forall.
  reflexivity.
Qed.

Lemma tomar_todos (p : ascii -> bool) (s x y : string) :
  tomar p s = (x, y) ->
  (forall a, In a (list_ascii_of_string x) -> p a = true) /\ s = x ++ y.
Proof.
  revert x y; induction s as [|a r IH]; intros x y; cbn.
  - intros [= <- <-]. split; [intros a []|reflexivity].
  - destruct (p a) eqn:Hp.
    + destruct (tomar p r) as [x' y'] eqn:E. intros [= <- <-].
      destruct (IH _ _ eq_refl) as [Hall ->]. split; [|reflexivity].
      cbn. intros b [<-|Hb]; [exact Hp | now apply Hall].
    + intros [= <- <-]. split; [intros b []|reflexivity].
Qed.

(** What [match] returns: a group of digits and a group of letters, neither
    empty. *)
Lemma regex_aqui_grupos (s numero abreviatura : string) :
  regex_aqui s = Some (numero, abreviatura) ->
  todos es_digito numero = true /\ todos es_letra abreviatura = true.
Proof.
  unfold regex_aqui.
  destruct s as [|a [|r [|t s1]]]; try discriminate.
  destruct (es_letra_i "a" a && es_letra_i "r" r && es_letra_i "t" t);
    [|discriminate].
  set (s2 := match s1 with
             | EmptyString => s1
             | String p s2 => if Nat.eqb (nat_of_ascii p) 46 then s2 else s1
             end).
  destruct (empieza_en_blanco s2); [|discriminate].
  destruct (tomar es_digito (saltar_blancos s2)) as [n s3] eqn:En.
  destruct (String.eqb n "") eqn:Hn; [discriminate|].
  destruct (empieza_en_blanco s3); [|discriminate].
  destruct (tomar es_letra (saltar_blancos s3)) as [ab s4] eqn:Ea.
  destruct (String.eqb ab "") eqn:Ha; [discriminate|].
  intros [= <- <-].
  apply tomar_todos in En as [Hd _]. apply tomar_todos in Ea as [Hl _].
  split; apply todos_spec; (split; [now apply String.eqb_neq|assumption]).
Qed.

Lemma regex_match_grupos (s numero abreviatura : string) :
  regex_match s = Some (numero, abreviatura) ->
  todos es_digito numero = true /\ todos es_letra abreviatura = true.
Proof.
  induction s as [|a r IH]; cbn [regex_match].
  - destruct (regex_aqui "") as [m|] eqn:E; [|discriminate].
    intros [= ->]. now apply regex_aqui_grupos in E.
  - destruct (regex_aqui (String a r)) as [m|] eqn:E; [|exact IH].
    intros [= ->]. now apply regex_aqui_grupos in E.
Qed.

(** What [lineas.map(...)] does, effects apart: the articles of the lines
    that match, and a warning for each line that does not. *)
Lemma map_async_leer_linea (lineas : list string) (c : Consola) :
  map_async leer_linea lineas c
  = (Normal (map (fun linea =>
                    match regex_match linea with
                    | Some (numero, abreviatura) =>
                        Some (Articulo.mk numero abreviatura (trim linea))
                    | None => None
                    end) lineas),
     (c ++ map (fun linea => ("Formato no reconocido: " ++ linea)%string)
             (filter (fun linea =>
                        match regex_match linea with
                        | Some _ => false
                        | None => true
                        end) lineas))%list).
Proof.
  revert c; induction lineas as [|l ls IH]; intros c; cbn [map_async map filter].
  - unfold resolve. now rewrite app_nil_r.
  - unfold then_ at 1, leer_linea.
    destruct (regex_match l) as [[n ab]|].
    + unfold resolve at 1. unfold then_. rewrite IH. reflexivity.
    + unfold then_ at 1, console_warn, resolve at 1. unfold then_.
      rewrite IH. unfold resolve. cbn [map]. now rewrite <- app_assoc.
Qed.

Lemma leerArticulos_value (fs_readFile : string -> Completion string)
    (filePath : string) (c : Consola) :
  leerArticulos fs_readFile filePath c
  = match fs_readFile filePath with
    | Throw e =>
        (Throw e,
         (c ++ [("Error al leer el archivo de artículos: "
                  ++ Error.message e)%string])%list)
    | Normal data =>
        (Normal (filter_Boolean (map articulo_de_linea (lineas_utiles data))),
         (c ++ map (fun linea => ("Formato no reconocido: " ++ linea)%string)
                 (filter no_reconocida (lineas_utiles data)))%list)
    end.
Proof.
  unfold leerArticulos, try_catch, then_ at 1, await.
  destruct (fs_readFile filePath) as [data|e].
  - cbn zeta. unfold then_ at 1. fold (lineas_utiles data).
    rewrite map_async_leer_linea. reflexivity.
  - reflexivity.
Qed.

Lemma length_filter_Boolean_map {A B} (f : A -> option B) (l : list A) :
  List.length (filter_Boolean (map f l))
  + List.length (filter (fun x => match f x with Some _ => false | None => true end) l)
  = List.length l.
Proof.
  induction l as [|x l IH]; [reflexivity|].
  cbn. destruct (f x); cbn; lia.
Qed.

Lemma In_filter_Boolean_map {A B} (f : A -> option B) (l : list A) (y : B) :
  In y (filter_Boolean (map f l)) -> exists x, In x l /\ f x = Some y.
Proof.
  induction l as [|x l IH]; cbn; [intros []|].
  destruct (f x) as [z|] eqn:E.
  - intros [<-|H]; [now exists x; auto|].
    destruct (IH H) as (x' & Hx' & Hf). exists x'. auto.
  - intros H. destruct (IH H) as (x' & Hx' & Hf). exists x'. auto.
Qed.

(** X12.  When the articles file is read, [leerArticulos] resolves with the
    articles of the lines that are not blank and match, in the order of the
    file, and writes one warning [Formato no reconocido: <line>] for each
    line that is not blank and does not match, in the same order, after the
    lines already on the console.  A line gives an article or a warning,
    never both.  Each article has a number made of one or more digits and an
    abbreviation made of one or more ASCII letters, and carries the trimmed
    text of its line, which is not empty. *)
Theorem leerArticulos_accounts
    (fs_readFile : string -> Completion string)
    (filePath data : string) (c : Consola) :
  fs_readFile filePath = Normal data ->
  let lineas := lineas_utiles data in
  leerArticulos fs_readFile filePath c
  = (Normal (filter_Boolean (map articulo_de_linea lineas)),
     (c ++ map (fun linea => ("Formato no reconocido: " ++ linea)%string)
             (filter no_reconocida lineas))%list)
  /\ (forall linea, In linea lineas ->
        match articulo_de_linea linea with
        | Some a =>
            no_reconocida linea = false
            /\ todos es_digito (Articulo.numero a) = true
            /\ todos es_letra (Articulo.abreviatura a) = true
            /\ Articulo.lineaOriginal a = trim linea
            /\ Articulo.lineaOriginal a <> ""
        | None => no_reconocida linea = true
        end)
  /\ List.length (filter_Boolean (map articulo_de_linea lineas))
     + List.length (filter no_reconocida lineas)
     = List.length lineas.
Proof.
  intros Hread lineas. rewrite leerArticulos_value, Hread.
  split; [reflexivity|]. split.
  - intros linea Hin. unfold lineas, lineas_utiles in Hin.
    apply filter_In in Hin as [_ Hnb].
    apply negb_true_iff, String.eqb_neq in Hnb.
    unfold articulo_de_linea, no_reconocida.
    destruct (regex_match linea) as [[n ab]|] eqn:E; [|reflexivity].
    apply regex_match_grupos in E as [Hn Hab]. cbn.
    repeat split; assumption.
  - etransitivity;
      [|apply (length_filter_Boolean_map articulo_de_linea lineas)].
    do 2 f_equal. apply filter_ext. intros l.
    unfold no_reconocida, articulo_de_linea.
    now destruct (regex_match l) as [[n ab]|].
Qed.

(** *** The expected format, written and read back *)

Lemma firme_no_blanco (a b c : ascii) :
  firme a = true ->
  blanco1 a = false
  /\ blanco2 a b = false /\ blanco2 b a = false
  /\ blanco3 a b c = false /\ blanco3 b c a = false.
Proof.
  unfold firme, blanco1, blanco2, blanco3.
  set (n := nat_of_ascii a). set (m := nat_of_ascii b). set (k := nat_of_ascii c).
  rewrite andb_true_iff, !Nat.ltb_lt. intros [H1 H2].
  assert (Heq : forall x, x <= 32 \/ 128 <= x -> Nat.eqb n x = false)
    by (intros x Hx; apply Nat.eqb_neq; lia).
  assert (Hle : forall x, 128 <= x -> Nat.leb x n = false)
    by (intros x Hx; apply Nat.leb_gt; lia).
  assert (Hge : forall x, x <= 32 -> Nat.leb n x = false)
    by (intros x Hx; apply Nat.leb_gt; lia).
  rewrite (Hge 13), (Hle 128), ?(Heq 32), ?(Heq 194), ?(Heq 160), ?(Heq 225),
    ?(Heq 226), ?(Heq 227), ?(Heq 239), ?(Heq 128), ?(Heq 168), ?(Heq 169),
    ?(Heq 175), ?(Heq 159), ?(Heq 191) by lia.
  rewrite ?andb_false_r, ?andb_false_l, ?orb_false_r. cbn [andb orb].
  rewrite ?andb_false_r. repeat split.
Qed.

Lemma es_digito_firme (a : ascii) : es_digito a = true -> firme a = true.
Proof.
  unfold es_digito, firme. rewrite !andb_true_iff, !Nat.leb_le, !Nat.ltb_lt. lia.
Qed.

Lemma es_letra_firme (a : ascii) : es_letra a = true -> firme a = true.
Proof.
  unfold es_letra, firme.
  rewrite orb_true_iff, !andb_true_iff, !Nat.leb_le, !Nat.ltb_lt. lia.
Qed.

Lemma saltar_blancos_firme (a : ascii) (r : string) :
  firme a = true -> saltar_blancos (String a r) = String a r.
Proof.
  intros H. cbn [saltar_blancos].
  destruct (firme_no_blanco a a a H) as (-> & _).
  destruct r as [|b [|c r3]]; try reflexivity.
  - destruct (firme_no_blanco a b b H) as (_ & -> & _). reflexivity.
  - destruct (firme_no_blanco a b c H) as (_ & -> & _ & -> & _). reflexivity.
Qed.

Lemma saltar_blancos_acaba_firme (n : nat) (x : string) (l : ascii) :
  firme l = true ->
  String.length x <= n ->
  saltar_blancos (x ++ String l "") <> "".
Proof.
  intros Hl. revert x; induction n as [|n IH]; intros x Hx.
  - destruct x; [|cbn in Hx; lia]. cbn [append].
    now rewrite saltar_blancos_firme.
  - destruct x as [|a x]; [cbn [append]; now rewrite saltar_blancos_firme|].
    cbn [append saltar_blancos]. cbn in Hx.
    destruct (blanco1 a); [apply IH; lia|].
    destruct x as [|b x]; cbn [append].
    + destruct (firme_no_blanco l a a Hl) as (_ & _ & -> & _). discriminate.
    + cbn in Hx. destruct (blanco2 a b); [apply IH; lia|].
      destruct x as [|c x]; cbn [append].
      * destruct (firme_no_blanco l a b Hl) as (_ & _ & _ & _ & ->). discriminate.
      * cbn in Hx. destruct (blanco3 a b c); [apply IH; lia | discriminate].
Qed.

Lemma trimEnd_acaba_firme (x : string) (l : ascii) :
  firme l = true -> trimEnd (x ++ String l "") = x ++ String l "".
Proof.
  intros Hl. induction x as [|a x IH].
  - cbn [append trimEnd]. now rewrite saltar_blancos_firme.
  - cbn [append trimEnd].
    destruct (String.eqb_spec (saltar_blancos (String a (x ++ String l ""))) "")
      as [E|_].
    + exfalso. revert E.
      apply (saltar_blancos_acaba_firme (String.length (String a x)) (String a x) l Hl).
      apply Nat.le_refl.
    + now rewrite IH.
Qed.

Lemma ultimo_caracter (s : string) :
  s <> "" ->
  exists x l, s = x ++ String l "" /\ In l (list_ascii_of_string s).
Proof.
  induction s as [|a s IH]; [congruence|]. intros _.
  destruct s as [|b s].
  - exists "", a. split; [reflexivity | now left].
  - destruct IH as (x & l & E & Hin); [discriminate|].
    exists (String a x), l. split; [cbn; now rewrite <- E | now right].
Qed.

Lemma list_ascii_of_string_app (x y : string) :
  list_ascii_of_string (x ++ y)
  = (list_ascii_of_string x ++ list_ascii_of_string y)%list.
Proof. induction x as [|a x IH]; cbn; [reflexivity | now rewrite IH]. Qed.

Lemma tomar_prefijo (p : ascii -> bool) (x : string) (b : ascii) (r : string) :
  (forall a, In a (list_ascii_of_string x) -> p a = true) ->
  p b = false ->
  tomar p (x ++ String b r) = (x, String b r).
Proof.
  intros Hx Hb. induction x as [|a x IH]; cbn.
  - now rewrite Hb.
  - rewrite (Hx a (or_introl eq_refl)), IH; [reflexivity|].
    intros c Hc. apply Hx. now right.
Qed.

Lemma tomar_todo (p : ascii -> bool) (x : string) :
  (forall a, In a (list_ascii_of_string x) -> p a = true) ->
  tomar p x = (x, "").
Proof.
  intros Hx. induction x as [|a x IH]; cbn; [reflexivity|].
  rewrite (Hx a (or_introl eq_refl)), IH; [reflexivity|].
  intros c Hc. apply Hx. now right.
Qed.

(** A line in the expected format matches, with its number and its
    abbreviation as the groups. *)
Lemma regex_match_linea_de_articulo (numero abreviatura : string) :
  todos es_digito numero = true ->
  todos es_letra abreviatura = true ->
  regex_match (linea_de_articulo numero abreviatura) = Some (numero, abreviatura).
Proof.
  intros Hn Ha. apply todos_spec in Hn as [Hn0 Hn]. apply todos_spec in Ha as [Ha0 Ha].
  destruct numero as [|d n']; [congruence|].
  destruct abreviatura as [|l a']; [congruence|].
  assert (Hd : firme d = true) by (apply es_digito_firme, Hn; now left).
  assert (Hl : firme l = true) by (apply es_letra_firme, Ha; now left).
  unfold linea_de_articulo.
  change ("Art. " ++ String d n' ++ " " ++ String l a')
    with (String "A" (String "r" (String "t" (String "."
            (String " " (String d n' ++ String " " (String l a'))))))).
  cbn [regex_match].
  replace (regex_aqui _) with (Some (String d n', String l a')); [reflexivity|].
  symmetry. unfold regex_aqui.
  change (es_letra_i "a" "A" && es_letra_i "r" "r" && es_letra_i "t" "t") with true.
  cbn iota. change (Nat.eqb (nat_of_ascii ".") 46) with true. cbn iota.
  change (empieza_en_blanco (String " " ?x)) with true.
  assert (E1 : saltar_blancos (String " " (String d n' ++ String " " (String l a')))
               = String d n' ++ String " " (String l a')).
  { cbn [append]. change (saltar_blancos (String " " ?x)) with (saltar_blancos x).
    now apply saltar_blancos_firme. }
  cbn iota. rewrite E1.
  rewrite (tomar_prefijo es_digito (String d n') " " (String l a') Hn eq_refl).
  cbn iota beta. change (String.eqb (String d n') "") with false. cbn iota.
  change (empieza_en_blanco (String " " (String l a'))) with true. cbn iota.
  change (saltar_blancos (String " " (String l a')))
    with (saltar_blancos (String l a')).
  rewrite (saltar_blancos_firme l a' Hl), (tomar_todo es_letra (String l a') Ha).
  reflexivity.
Qed.

Lemma trim_linea_de_articulo (numero abreviatura : string) :
  todos es_letra abreviatura = true ->
  trim (linea_de_articulo numero abreviatura) = linea_de_articulo numero abreviatura.
Proof.
  intros Ha. apply todos_spec in Ha as [Ha0 Ha].
  destruct (ultimo_caracter abreviatura Ha0) as (x & l & E & Hin).
  unfold trim, linea_de_articulo.
  change ("Art. " ++ numero ++ " " ++ abreviatura)
    with (String "A" ("rt. " ++ numero ++ " " ++ abreviatura)).
  rewrite saltar_blancos_firme by reflexivity.
  change (String "A" ("rt. " ++ numero ++ " " ++ abreviatura))
    with ("Art. " ++ numero ++ " " ++ abreviatura).
  rewrite E.
  replace ("Art. " ++ numero ++ " " ++ x ++ String l "")
    with (("Art. " ++ numero ++ " " ++ x) ++ String l "").
  - apply trimEnd_acaba_firme, es_letra_firme, Ha, Hin.
  - now rewrite !append_assoc.
Qed.

(** A string without line feeds is one line. *)
Lemma split_LF_linea (x rest : string) :
  (forall a, In a (list_ascii_of_string x) -> Nat.eqb (nat_of_ascii a) 10 = false) ->
  split_LF x = [x]
  /\ split_LF (x ++ LF ++ rest) = x :: split_LF rest.
Proof.
  intros Hx. induction x as [|a x IH].
  - split; reflexivity.
  - destruct IH as [IH1 IH2]; [intros b Hb; apply Hx; now right|].
    cbn [append split_LF]. rewrite (Hx a (or_introl eq_refl)).
    split; [now rewrite IH1 | now rewrite IH2].
Qed.

Lemma split_LF_concat (ls : list string) :
  ls <> [] ->
  Forall (fun x => forall a, In a (list_ascii_of_string x) ->
                     Nat.eqb (nat_of_ascii a) 10 = false) ls ->
  split_LF (String.concat LF ls) = ls.
Proof.
  intros Hne H. induction H as [|x ls Hx Hls IH]; [congruence|].
  destruct ls as [|y ls].
  - cbn [String.concat]. now apply split_LF_linea.
  - change (String.concat LF (x :: y :: ls))
      with (x ++ LF ++ String.concat LF (y :: ls)).
    destruct (split_LF_linea x (String.concat LF (y :: ls)) Hx) as [_ ->].
    f_equal. apply IH. discriminate.
Qed.

Lemma linea_de_articulo_sin_LF (numero abreviatura : string) :
  todos es_digito numero = true ->
  todos es_letra abreviatura = true ->
  forall a, In a (list_ascii_of_string (linea_de_articulo numero abreviatura)) ->
    Nat.eqb (nat_of_ascii a) 10 = false.
Proof.
  intros Hn Ha a. apply todos_spec in Hn as [_ Hn]. apply todos_spec in Ha as [_ Ha].
  unfold linea_de_articulo. rewrite !list_ascii_of_string_app.
  assert (Hf : forall b, firme b = true -> Nat.eqb (nat_of_ascii b) 10 = false).
  { intros b. unfold firme. rewrite andb_true_iff, !Nat.ltb_lt, Nat.eqb_neq. lia. }
  intros H. apply in_app_or in H as [H|H].
  - cbn in H. destruct H as [<-|[<-|[<-|[<-|[<-|[]]]]]]; reflexivity.
  - apply in_app_or in H as [H|H]; [apply Hf, es_digito_firme, Hn, H|].
    apply in_app_or in H as [H|H].
    + cbn in H. destruct H as [<-|[]]. reflexivity.
    + apply Hf, es_letra_firme, Ha, H.
Qed.

(** X13.  Writing and reading back: for articles whose number is made of
    digits and whose abbreviation is made of ASCII letters (neither empty),
    the file with one line [Art. <number> <abbreviation>] per article is read
    as exactly those articles, in order, each with its line, and no warning
    is written.  The abbreviation keeps the letter case of the file. *)
Theorem leerArticulos_round_trip
    (fs_readFile : string -> Completion string)
    (filePath : string) (arts : list Articulo.t) (c : Consola) :
  Forall (fun a => bien_formado a = true) arts ->
  fs_readFile filePath = Normal (archivo_de arts) ->
  leerArticulos fs_readFile filePath c = (Normal arts, c).
Proof.
  intros Hwf Hread. rewrite leerArticulos_value, Hread.
  assert (Hcada : Forall (fun a =>
            let linea := Articulo.lineaOriginal a in
            trim linea = linea /\ linea <> ""
            /\ articulo_de_linea linea = Some a
            /\ forall b, In b (list_ascii_of_string linea) ->
                 Nat.eqb (nat_of_ascii b) 10 = false) arts).
  { apply Forall_forall. intros [n ab lo] Ha.
    rewrite Forall_forall in Hwf. specialize (Hwf _ Ha).
    unfold bien_formado in Hwf.
    cbn [Articulo.numero Articulo.abreviatura Articulo.lineaOriginal] in Hwf.
    apply andb_true_iff in Hwf as [Hwf Hlo]. apply andb_true_iff in Hwf as [Hn Hab].
    apply String.eqb_eq in Hlo. subst lo.
    cbv zeta. cbn [Articulo.lineaOriginal].
    split; [now apply trim_linea_de_articulo|]. split; [discriminate|].
    split; [|now apply linea_de_articulo_sin_LF].
    unfold articulo_de_linea.
    now rewrite regex_match_linea_de_articulo, trim_linea_de_articulo. }
  assert (Hutiles : lineas_utiles (archivo_de arts) = map Articulo.lineaOriginal arts).
  { unfold lineas_utiles, archivo_de. destruct arts as [|a arts]; [reflexivity|].
    rewrite split_LF_concat; [|discriminate|].
    - apply forallb_filter_id, forallb_forall. intros l Hl.
      apply in_map_iff in Hl as (a' & <- & Ha').
      rewrite Forall_forall in Hcada. destruct (Hcada _ Ha') as (-> & Hne & _).
      now apply negb_true_iff, String.eqb_neq.
    - apply Forall_forall. intros l Hl.
      apply in_map_iff in Hl as (a' & <- & Ha').
      rewrite Forall_forall in Hcada. now destruct (Hcada _ Ha') as (_ & _ & _ & H). }
  rewrite Hutiles. clear Hutiles Hread Hwf.
  assert (Hno : forall l a, articulo_de_linea l = Some a -> no_reconocida l = false).
  { intros l a. unfold articulo_de_linea, no_reconocida.
    now destruct (regex_match l) as [[n ab]|]. }
  replace (filter_Boolean (map articulo_de_linea (map Articulo.lineaOriginal arts)))
    with arts.
  - replace (filter no_reconocida (map Articulo.lineaOriginal arts))
      with (@nil string); [cbn; now rewrite app_nil_r|].
    induction Hcada as [|a arts (_ & _ & Ha & _) _ IH]; [reflexivity|].
    cbn [map filter]. now rewrite (Hno _ _ Ha).
  - induction Hcada as [|a arts (_ & _ & Ha & _) _ IH]; [reflexivity|].
    cbn [map filter_Boolean]. rewrite Ha. now f_equal.
Qed.

(** ** The loop of [main] *)

Lemma comprobarModificacionArticulo_veredicto
    (Date_parse : string -> Date)
    (axios_get_indice : string -> Completion Item)
    (axios_get_analisis : string -> Completion Analisis)
    (docId numeroArticulo : string) (fechaReferencia : Date) (c : Consola) :
  comprobarModificacionArticulo Date_parse axios_get_indice axios_get_analisis
    docId numeroArticulo fechaReferencia c
  = (Normal (veredicto Date_parse axios_get_indice axios_get_analisis
               docId numeroArticulo fechaReferencia),
     (c ++ traza_de_comprobar axios_get_indice axios_get_analisis
             docId numeroArticulo)%list).
Proof. apply comprobarModificacionArticulo_value. Qed.

Section MainFacts.
Variable Date_parse : string -> Date.
Variable axios_get_indice : string -> Completion Item.
Variable axios_get_analisis : string -> Completion Analisis.
Variable abreviaturas : Abreviaturas.
Variable fechaReferencia : Date.

#[local] Abbreviation verificar_uno :=
  (verificar_uno Date_parse axios_get_indice axios_get_analisis abreviaturas
     fechaReferencia).
#[local] Abbreviation verificar_desde :=
  (verificar_desde Date_parse axios_get_indice axios_get_analisis abreviaturas
     fechaReferencia).
#[local] Abbreviation entrada_de :=
  (entrada_de Date_parse axios_get_indice axios_get_analisis abreviaturas
     fechaReferencia).

(** One turn of the loop resolves with the element for its article and
    only adds lines to the console. *)
Lemma verificar_uno_value (i total : nat) (articulo : Articulo.t) (c : Consola) :
  exists lineas,
    verificar_uno i total articulo c
    = (Normal (entrada_de articulo), (c ++ lineas)%list).
Proof.
  unfold verificar_uno, entrada_de, then_ at 1, console_log at 1.
  destruct (get_abreviatura abreviaturas (Articulo.abreviatura articulo)) as [ley|].
  - unfold try_catch, then_ at 1.
    rewrite comprobarModificacionArticulo_veredicto.
    unfold then_, console_log, resolve.
    eexists. rewrite <- !app_assoc. reflexivity.
  - unfold then_, console_warn, resolve.
    eexists. rewrite <- !app_assoc. reflexivity.
Qed.

Lemma verificar_desde_value (i total : nat) (articulos : list Articulo.t)
    (resultados : list Entrada.t) (c : Consola) :
  exists lineas,
    verificar_desde i total articulos resultados c
    = (Normal (resultados ++ map entrada_de articulos)%list, (c ++ lineas)%list).
Proof.
  revert i resultados c; induction articulos as [|a arts IH]; intros i rs c.
  - exists []. cbn. unfold resolve. now rewrite !app_nil_r.
  - simpl. unfold then_ at 1.
    destruct (verificar_uno_value i total a c) as [l1 ->].
    destruct (IH (S i) (rs ++ [entrada_de a])%list (c ++ l1)%list) as [l2 ->].
    exists (l1 ++ l2)%list. now rewrite <- !app_assoc.
Qed.
End MainFacts.

(** X14.  The loop of [main] never rejects and yields one result per
    article, in the order of the articles, whatever the network does; each
    result carries its article.  An article whose abbreviation is unknown
    gets [encontrado: false] with the message [Abreviatura no reconocida]
    and no [docId]; any other gets the orchestrator's result for the [id] of
    its law, with that [id] as [docId].  The console only grows. *)
Theorem verificar_articulos_one_per_article
    (Date_parse : string -> Date)
    (axios_get_indice : string -> Completion Item)
    (axios_get_analisis : string -> Completion Analisis)
    (abreviaturas : Abreviaturas) (fechaReferencia : Date)
    (articulos : list Articulo.t) (c : Consola) :
  exists resultados lineas,
    verificar_articulos Date_parse axios_get_indice axios_get_analisis
      abreviaturas fechaReferencia articulos c
    = (Normal resultados, (c ++ lineas)%list)
    /\ map Entrada.articulo resultados = articulos
    /\ resultados
       = map (fun articulo =>
                match get_abreviatura abreviaturas (Articulo.abreviatura articulo) with
                | None =>
                    Entrada.mk articulo
                      (CheckResult.NoEncontrado
                         ("Abreviatura no reconocida: "
                            ++ Articulo.abreviatura articulo))
                      None None
                | Some ley =>
                    Entrada.mk articulo
                      (veredicto Date_parse axios_get_indice axios_get_analisis
                         (ToString (Ley.id ley)) (Articulo.numero articulo)
                         fechaReferencia)
                      (Ley.id ley) (Ley.nombre ley)
                end) articulos.
Proof.
  unfold verificar_articulos.
  destruct (verificar_desde_value Date_parse axios_get_indice axios_get_analisis
              abreviaturas fechaReferencia 0 (List.length articulos) articulos [] c)
    as [lineas H].
  cbn [app] in H. do 2 eexists. split; [exact H|]. split; [|reflexivity].
  rewrite map_map. rewrite <- (map_id articulos) at 2. apply map_ext.
  intros a. unfold entrada_de.
  now destruct (get_abreviatura abreviaturas (Articulo.abreviatura a)).
Qed.

(** X15.  From the articles to the report, nothing is lost: the four
    figures of the report's summary for the results of the loop add up to
    the number of articles. *)
Theorem verificar_articulos_report_total
    (Date_parse : string -> Date)
    (axios_get_indice : string -> Completion Item)
    (axios_get_analisis : string -> Completion Analisis)
    (abreviaturas : Abreviaturas) (fechaReferencia : Date)
    (articulos : list Articulo.t) (c : Consola) :
  exists resultados c',
    verificar_articulos Date_parse axios_get_indice axios_get_analisis
      abreviaturas fechaReferencia articulos c
    = (Normal resultados, c')
    /\ let k := clasificar resultados in
       let total := Z.of_nat (List.length resultados) in
       total = Z.of_nat (List.length articulos)
       /\ (Clasificacion.articulosModificados k
           + (total - Clasificacion.articulosModificados k
              - Clasificacion.articulosNoEncontrados k
              - Clasificacion.articulosConError k)
           + Clasificacion.articulosNoEncontrados k
           + Clasificacion.articulosConError k
           = Z.of_nat (List.length articulos))%Z
       /\ (0 <= total - Clasificacion.articulosModificados k
                - Clasificacion.articulosNoEncontrados k
                - Clasificacion.articulosConError k)%Z.
Proof.
  unfold verificar_articulos.
  destruct (verificar_desde_value Date_parse axios_get_indice axios_get_analisis
              abreviaturas fechaReferencia 0 (List.length articulos) articulos [] c)
    as [lineas H].
  cbn [app] in H. do 2 eexists. split; [exact H|]. cbv zeta.
  rewrite length_map. unfold clasificar. rewrite clasificar_desde.
  cbn -[Z.of_nat Z.sub Z.add Z.le].
  set (rs := map _ articulos).
  assert (Hlen : List.length rs = List.length articulos) by apply length_map.
  pose proof (length_por_clase rs) as Hp. rewrite Hlen in Hp.
  repeat split; lia.
Qed.

(** X16.  The abbreviations are looked up in a plain object, so an
    abbreviation that is not in the file but names a member of
    [Object.prototype] (such as [constructor] or [toString]) is not
    reported as unknown: the check runs against the document [undefined],
    and the result has no [docId] and no [nombreLey]. *)
Theorem verificar_uno_inherited_key
    (Date_parse : string -> Date)
    (axios_get_indice : string -> Completion Item)
    (axios_get_analisis : string -> Completion Analisis)
    (abreviaturas : Abreviaturas) (fechaReferencia : Date)
    (i total : nat) (articulo : Articulo.t) (c : Consola) :
  propiedad_propia abreviaturas (Articulo.abreviatura articulo) = None ->
  In (Articulo.abreviatura articulo) Object_prototype ->
  exists lineas,
    verificar_uno Date_parse axios_get_indice axios_get_analisis
      abreviaturas fechaReferencia i total articulo c
    = (Normal (Entrada.mk articulo
                 (veredicto Date_parse axios_get_indice axios_get_analisis
                    "undefined" (Articulo.numero articulo) fechaReferencia)
                 None None),
       (c ++ lineas)%list).
Proof.
  intros Hown Hin.
  destruct (verificar_uno_value Date_parse axios_get_indice axios_get_analisis
              abreviaturas fechaReferencia i total articulo c) as [lineas H].
  exists lineas. rewrite H. unfold entrada_de, get_abreviatura. rewrite Hown.
  replace (existsb (String.eqb (Articulo.abreviatura articulo)) Object_prototype)
    with true; [reflexivity|].
  symmetry. apply existsb_exists.
  exists (Articulo.abreviatura articulo). split; [exact Hin | apply String.eqb_refl].
Qed.

(** X17.  The two readers have the same failure path: the error of the
    read (and, for the abbreviations, of [JSON.parse]) is written on the
    console in one line and thrown again unchanged; when nothing fails,
    [leerAbreviaturas] resolves with the parsed object and writes nothing. *)
Theorem readers_rethrow
    (fs_readFile : string -> Completion string)
    (JSON_parse : string -> Completion Abreviaturas)
    (filePath : string) (c : Consola) :
  leerAbreviaturas fs_readFile JSON_parse filePath c
  = match (data <- fs_readFile filePath ;; JSON_parse data) with
    | Normal abreviaturas => (Normal abreviaturas, c)
    | Throw e =>
        (Throw e,
         (c ++ [("Error al leer el archivo de abreviaturas: "
                  ++ Error.message e)%string])%list)
    end
  /\ (forall e,
        fs_readFile filePath = Throw e ->
        leerArticulos fs_readFile filePath c
        = (Throw e,
           (c ++ [("Error al leer el archivo de artículos: "
                    ++ Error.message e)%string])%list)).
Proof.
  split.
  - unfold leerAbreviaturas, try_catch, then_, await, sync, console_error, reject.
    destruct (fs_readFile filePath) as [data|e]; cbn [bind]; [|reflexivity].
    destruct (JSON_parse data); reflexivity.
  - intros e He. now rewrite leerArticulos_value, He.
Qed.

(** ** Witnesses and examples for the further properties *)

Lemma buscarModificacionesArticulo_coherent_witness :
  Date_parse_iso "" = None
  /\ exists r,
       buscarModificacionesArticulo Date_parse_iso analisis_dos "a51"
         (Date_parse_iso "2019-01-01") = Normal r
       /\ (Resultado.modificado r = true <-> Resultado.detalles r <> [])
       /\ (Resultado.modificado r = true ->
           exists d,
             In d (Resultado.detalles r)
             /\ Detalle.fecha d = Resultado.fechaUltimaModificacion r
             /\ forall d', In d' (Resultado.detalles r) ->
                  Date_ge (Date_new Date_parse_iso (Detalle.fecha d))
                    (Date_new Date_parse_iso (Detalle.fecha d')) = true).
Proof.
  split; [reflexivity|].
  exact (buscarModificacionesArticulo_coherent Date_parse_iso analisis_dos "a51"
           (Date_parse_iso "2019-01-01") eq_refl).
Defined.

Lemma buscarModificacionesArticulo_monotone_witness :
  Date_ge (Date_parse_iso "2020-03-01") (Date_parse_iso "2019-01-01") = true
  /\ exists r1 r2,
       buscarModificacionesArticulo Date_parse_iso analisis_dos "a51"
         (Date_parse_iso "2019-01-01") = Normal r1
       /\ buscarModificacionesArticulo Date_parse_iso analisis_dos "a51"
            (Date_parse_iso "2020-03-01") = Normal r2
       /\ (Resultado.modificado r2 = true -> Resultado.modificado r1 = true)
       /\ (forall d, In d (Resultado.detalles r2) -> In d (Resultado.detalles r1)).
Proof.
  split; [reflexivity|].
  exact (buscarModificacionesArticulo_monotone Date_parse_iso analisis_dos "a51"
           (Date_parse_iso "2019-01-01") (Date_parse_iso "2020-03-01") eq_refl).
Defined.

Lemma buscarModificacionesArticulo_permutation_witness :
  Permutation (registros analisis_dos) (registros analisis_dos_invertido)
  /\ exists r r',
       buscarModificacionesArticulo Date_parse_iso analisis_dos "a51"
         (Date_parse_iso "2019-01-01") = Normal r
       /\ buscarModificacionesArticulo Date_parse_iso analisis_dos_invertido "a51"
            (Date_parse_iso "2019-01-01") = Normal r'
       /\ Resultado.modificado r = Resultado.modificado r'
       /\ Permutation (Resultado.detalles r) (Resultado.detalles r')
       /\ Date_new Date_parse_iso (Resultado.fechaUltimaModificacion r)
          = Date_new Date_parse_iso (Resultado.fechaUltimaModificacion r').
Proof.
  assert (H : Permutation (registros analisis_dos) (registros analisis_dos_invertido))
    by apply perm_swap.
  split; [exact H|].
  exact (buscarModificacionesArticulo_permutation Date_parse_iso analisis_dos
           analisis_dos_invertido "a51" (Date_parse_iso "2019-01-01") eq_refl H).
Defined.

Lemma comprobarModificacionArticulo_skips_analysis_witness :
  buscarArticuloEnIndice indice_51 "52" = Normal None
  /\ comprobarModificacionArticulo Date_parse_iso red_indice red_analisis_caida
       docId_CC "52" (Date_parse_iso "2019-01-01") []
     = comprobarModificacionArticulo Date_parse_iso red_indice
         (red_analisis analisis_uno) docId_CC "52" (Date_parse_iso "2019-01-01") [].
Proof.
  split; [reflexivity|].
  apply (comprobarModificacionArticulo_skips_analysis Date_parse_iso red_indice
           red_analisis_caida (red_analisis analisis_uno) docId_CC "52").
  reflexivity.
Defined.

Lemma comprobarModificacionArticulo_found_witness :
  exists m,
    buscarModificacionesArticulo Date_parse_iso analisis_undefined "undefined"
      (Date_parse_iso "2019-01-01") = Normal m
    /\ comprobarModificacionArticulo Date_parse_iso red_indice_sin_id
         (red_analisis analisis_undefined) docId_CC "51"
         (Date_parse_iso "2019-01-01") []
       = (Normal (CheckResult.Encontrado None (Some "Artículo 51")
                    (Resultado.modificado m)
                    (Resultado.fechaUltimaModificacion m)
                    (Resultado.detalles m)),
          []).
Proof.
  apply (comprobarModificacionArticulo_found Date_parse_iso red_indice_sin_id
           (red_analisis analisis_undefined) docId_CC "51"
           (Date_parse_iso "2019-01-01") [] indice_sin_id
           (mkItem (Some "articulo") (Some "Artículo 51") None None)
           analisis_undefined); reflexivity.
Defined.

Lemma contenido_del_informe_omits_unmodified_witness :
  contenido_del_informe
    [entrada_sin_cambios "7"; entrada_modificada] "01/01/2019" "02/11/2026 10:00:00"
  = contenido_del_informe
      [entrada_modificada; entrada_sin_cambios "8"] "01/01/2019" "02/11/2026 10:00:00".
Proof.
  apply contenido_del_informe_omits_unmodified; reflexivity.
Defined.

Lemma leerArticulos_accounts_witness :
  leerArticulos disco_ejemplo "articulos.txt" []
  = (Normal (filter_Boolean
               (map articulo_de_linea (lineas_utiles archivo_ejemplo))),
     ([] ++ map (fun linea => ("Formato no reconocido: " ++ linea)%string)
              (filter no_reconocida (lineas_utiles archivo_ejemplo)))%list)
  /\ (forall linea, In linea (lineas_utiles archivo_ejemplo) ->
        match articulo_de_linea linea with
        | Some a =>
            no_reconocida linea = false
            /\ todos es_digito (Articulo.numero a) = true
            /\ todos es_letra (Articulo.abreviatura a) = true
            /\ Articulo.lineaOriginal a = trim linea
            /\ Articulo.lineaOriginal a <> ""
        | None => no_reconocida linea = true
        end)
  /\ List.length (filter_Boolean
                    (map articulo_de_linea (lineas_utiles archivo_ejemplo)))
     + List.length (filter no_reconocida (lineas_utiles archivo_ejemplo))
     = List.length (lineas_utiles archivo_ejemplo).
Proof.
  exact (leerArticulos_accounts disco_ejemplo "articulos.txt" archivo_ejemplo []
           eq_refl).
Defined.

Lemma leerArticulos_round_trip_witness :
  leerArticulos (disco_de articulos_ejemplo) "articulos.txt" []
  = (Normal articulos_ejemplo, []).
Proof.
  apply leerArticulos_round_trip; [|reflexivity].
  repeat constructor.
Defined.

Lemma verificar_uno_inherited_key_witness :
  exists lineas,
    verificar_uno Date_parse_iso red_indice (red_analisis analisis_uno)
      abreviaturas_CC (Date_parse_iso "2019-01-01") 0 1 articulo_constructor []
    = (Normal (Entrada.mk articulo_constructor
                 (veredicto Date_parse_iso red_indice (red_analisis analisis_uno)
                    "undefined" "1" (Date_parse_iso "2019-01-01"))
                 None None),
       ([] ++ lineas)%list).
Proof.
  apply (verificar_uno_inherited_key Date_parse_iso red_indice
           (red_analisis analisis_uno) abreviaturas_CC
           (Date_parse_iso "2019-01-01") 0 1 articulo_constructor []).
  - reflexivity.
  - left; reflexivity.
Defined.

(** *** The readers, the loop and the report on the samples *)

Example leerArticulos_ejemplo :
  leerArticulos disco_ejemplo "articulos.txt" []
  = (Normal [Articulo.mk "51" "CC" "Art. 51 CC";
             Articulo.mk "7" "cc" "art 7 cc";
             Articulo.mk "12" "bis" "Art. 12 bis LEC"],
     ["Formato no reconocido: no es un articulo"]).
Proof. vm_compute. reflexivity. Qed.

(** A known abbreviation, an unknown one and one that [Object.prototype]
    answers for. *)
Example verificar_articulos_ejemplo :
  verificar_articulos Date_parse_iso red_indice (red_analisis analisis_uno)
    abreviaturas_CC (Date_parse_iso "2019-01-01")
    [Articulo.mk "51" "CC" "Art. 51 CC"; Articulo.mk "5" "XX" "Art. 5 XX";
     articulo_constructor] []
  = (Normal
       [entrada_modificada;
        Entrada.mk (Articulo.mk "5" "XX" "Art. 5 XX")
          (CheckResult.NoEncontrado "Abreviatura no reconocida: XX") None None;
        Entrada.mk articulo_constructor
          (CheckResult.ConError "Request failed with status code 404") None None],
     ["[1/3] Verificando Art. 51 CC...";
      "  ✅ Modificado: última modificación el 2020-01-01";
      "[2/3] Verificando Art. 5 XX...";
      "  ⚠️ Abreviatura no reconocida: XX";
      "[3/3] Verificando Art. 1 constructor...";
      "Error al obtener índice para undefined: Request failed with status code 404";
      "Estado: 404, Datos: {}";
      "Error al comprobar modificaciones del artículo 1 en undefined: Request failed with status code 404";
      "  ❌ undefined"]).
Proof. vm_compute. reflexivity. Qed.

(** A failed check whose message is empty is listed as not found. *)
Example clasificar_error_vacio :
  Clasificacion.noEncontrados (clasificar [entrada_fallida ""])
  = [entrada_fallida ""]
  /\ Clasificacion.conError (clasificar [entrada_fallida "Network Error"])
     = [entrada_fallida "Network Error"].
Proof. split; reflexivity. Qed.

Example contenido_del_informe_ejemplo :
  contenido_del_informe
    [entrada_modificada; entrada_sin_cambios "8"; entrada_fallida "Network Error"]
    "01/01/2019" "02/11/2026 10:00:00"
  = "# Informe de modificaciones de artículos legales" ++ LF ++ LF
    ++ "**Fecha de referencia:** 01/01/2019" ++ LF
    ++ "**Fecha del informe:** 02/11/2026 10:00:00" ++ LF ++ LF
    ++ "## Resumen" ++ LF ++ LF
    ++ "- **Total de artículos verificados:** 3" ++ LF
    ++ "- **Artículos modificados desde 01/01/2019:** 1" ++ LF
    ++ "- **Artículos no modificados:** 1" ++ LF
    ++ "- **Artículos no encontrados:** 0" ++ LF
    ++ "- **Artículos con error en la consulta:** 1" ++ LF ++ LF
    ++ "## Artículos modificados" ++ LF ++ LF
    ++ "### Art. 51 CC" ++ LF ++ LF
    ++ "- **ID en el BOE:** BOE-A-1889-4763" ++ LF
    ++ "- **Fecha última modificación:** 2020-01-01" ++ LF
    ++ "- **Detalles de las modificaciones:**" ++ LF
    ++ "  - 2020-01-01: No disponible (Ref: No disponible)" ++ LF
    ++ LF
    ++ "## Artículos con error en la consulta" ++ LF ++ LF
    ++ "- Art. 9 CC (BOE-A-1889-4763): Network Error" ++ LF
    ++ LF.
Proof. vm_compute. reflexivity. Qed.
